(** * serialchemy: ModelSerializer

    A shallow embedding of [src/serialchemy/model_serializer.py] and the
    properties of its field resolution, [dump], [load] and lazy default
    serializer assignment.

    Python objects that the serializer mutates in place live in explicit
    stores: [Field] objects (shared by every serializer entry that names
    them) and model instances.  Python dicts are insertion-ordered
    association lists with unique keys.  Exceptions are an error result
    next to the state, so the effects of a call that raises stay visible. *)

From stdpp Require Import base option list strings.
From Stdlib Require Import ZArith.

Set Default Proof Using "Type".

(** ** Python dicts: insertion-ordered, keyed by strings *)

Abbreviation pydict V := (list (string * V)).

Fixpoint dict_get {V} (k : string) (d : pydict V) : option V :=
  match d with
  | [] => None
  | (k', v) :: d' => if String.eqb k k' then Some v else dict_get k d'
  end.

(** [d[k] = v]: an existing key keeps its position, a new key goes last. *)
Fixpoint dict_set {V} (k : string) (v : V) (d : pydict V) : pydict V :=
  match d with
  | [] => [(k, v)]
  | (k', v') :: d' =>
      if String.eqb k k' then (k, v) :: d' else (k', v') :: dict_set k v d'
  end.

(** [d.setdefault(k, v)] *)
Definition dict_setdefault {V} (k : string) (v : V) (d : pydict V) : pydict V :=
  match dict_get k d with
  | Some _ => d
  | None => d ++ [(k, v)]
  end.

(** [d.update(src)] *)
Definition dict_update {V} (d src : pydict V) : pydict V :=
  fold_left (fun acc kv => dict_set kv.1 kv.2 acc) src d.

Definition dict_keys {V} (d : pydict V) : list string := map fst d.

(** [k in d] *)
Definition dict_contains {V} (k : string) (d : pydict V) : bool :=
  match dict_get k d with Some _ => true | None => false end.

(** Truthiness of a container: non-empty. *)
Definition dict_bool {V} (d : pydict V) : bool :=
  match d with [] => false | _ => true end.

(** The invariant of every Python dict: no key occurs twice. *)
Definition wf_dict {V} (d : pydict V) : Prop := NoDup (dict_keys d).

(** [name.startswith('_')] *)
Definition startswith_underscore (name : string) : bool := String.prefix "_" name.

(** ** Values, exceptions and results *)

Abbreviation loc := nat.

Inductive value :=
| VNone
| VBool (b : bool)
| VInt (z : Z)
| VStr (s : string)
| VDateTime (clock : Z)
| VDate (day : Z)
| VEnum (member : string).

Inductive exn :=
| AssertionError (msg : string)
| ConversionError (msg : string)
| InvalidReference.

Inductive res (A : Type) :=
| Ok (a : A)
| Raise (e : exn).
Arguments Ok {A} a.
Arguments Raise {A} e.

(** ** External collaborators

    The mapper's property descriptors, the session type and the three
    column predicates of [serialchemy.serializer_checks] are not part of
    the module; they are taken as an interface. *)

Class Mapper := {
  ModelProperty : Type;
  Session : Type;
  is_datetime_column : ModelProperty -> bool;
  is_date_column : ModelProperty -> bool;
  is_enum_column : ModelProperty -> bool;
}.

Inductive serializer_class :=
| DateTimeColumnSerializer
| DateColumnSerializer
| EnumSerializer
| UserSerializer (name : string).

(** A serializer object: its class and the model property it was
    constructed with ([serializer_class(model_property)]). *)
Record Serializer `{Mapper} := mkSerializer {
  ser_class : serializer_class;
  ser_property : option ModelProperty;
}.

(** The conversions of the serializer plugins; any of them may raise. *)
Class Plugins `{Mapper} := {
  serializer_dump : Serializer -> value -> res value;
  serializer_load : Serializer -> value -> res value;
}.

(** ** Field

    Modelled from the spec: the [Field] class of [serialchemy.field] is
    missing from the sources.  It carries the three access-policy flags and
    an optional serializer ([serializer] reads [_serializer]); its [dump] and
    [load] delegate to the serializer when present and return the value
    unchanged otherwise.  [field_session_based] is
    [isinstance(field, SessionBasedField)] and [field_bool] is [bool(field)]. *)
Record Field `{Mapper} := mkField {
  load_only : bool;
  dump_only : bool;
  creation_only : bool;
  _serializer : option Serializer;
  field_session_based : bool;
  field_bool : bool;
}.

(** [Field()] *)
Definition Field_new `{Mp : Mapper} : Field := mkField _ false false false None false true.

Definition set_serializer `{Mp : Mapper} (f : Field) (s : Serializer) : Field :=
  mkField _ (load_only f) (dump_only f) (creation_only f) (Some s)
          (field_session_based f) (field_bool f).

Definition Field_dump `{Mp : Mapper} `{Pl : !Plugins} (f : Field) (v : value) : res value :=
  match _serializer f with
  | Some s => serializer_dump s v
  | None => Ok v
  end.

Definition Field_load `{Mp : Mapper} `{Pl : !Plugins} (f : Field) (v : value) : res value :=
  match _serializer f with
  | Some s => serializer_load s v
  | None => Ok v
  end.

(** The [load(value, session=session)] of the [SessionBasedField]
    subclasses (nested fields), which may raise as well. *)
Class SessionFields `{Mapper} := {
  session_load : Field -> value -> option Session -> res value;
}.

(** ** Model classes and instances *)

(** A model instance: its attribute dict and its class's [__bool__] (or
    [__len__]), which computes [bool(obj)] from the attributes the instance
    has at that moment.  A class that defines neither is always truthy
    ([default_bool]). *)
Record Obj := mkObj {
  obj_attrs : pydict value;
  obj_bool : pydict value -> bool;
}.

Definition default_bool : pydict value -> bool := fun _ => true.

(** What the serializer uses of a declarative class: its name, the mapper's
    columns and composites, and the instance its zero-argument constructor
    builds. *)
Record ModelClass `{Mapper} := mkModelClass {
  cls_name : string;
  mapper_c : pydict ModelProperty;
  mapper_composites : pydict ModelProperty;
  cls_new : Obj;
}.

(** ** The state and the monad of the embedding *)

Record state `{Mapper} := mkState {
  st_fields : list Field;
  st_objs : list Obj;
  st_warnings : list string;
}.

Definition M `{Mp : Mapper} (A : Type) : Type := state -> res A * state.

#[global] Instance M_ret `{Mp : Mapper} : MRet M := fun A a st => (Ok a, st).

#[global] Instance M_bind `{Mp : Mapper} : MBind M := fun A B f m st =>
  match m st with
  | (Ok a, st') => f a st'
  | (Raise e, st') => (Raise e, st')
  end.

Definition raise `{Mp : Mapper} {A} (e : exn) : M A := fun st => (Raise e, st).

Definition lift_res `{Mp : Mapper} {A} (r : res A) : M A := fun st => (r, st).

(** Reading and writing a [Field] object through its reference. *)
Definition get_field `{Mp : Mapper} (l : loc) : M Field := fun st =>
  match st_fields st !! l with
  | Some f => (Ok f, st)
  | None => (Raise InvalidReference, st)
  end.

Definition put_field `{Mp : Mapper} (l : loc) (f : Field) : M unit := fun st =>
  (Ok tt, mkState _ (<[l := f]> (st_fields st)) (st_objs st) (st_warnings st)).

(** Allocation of a new [Field] object. *)
Definition alloc_field `{Mp : Mapper} (f : Field) : M loc := fun st =>
  (Ok (length (st_fields st)),
   mkState _ (st_fields st ++ [f]) (st_objs st) (st_warnings st)).

(** Allocation of a new model instance. *)
Definition alloc_obj `{Mp : Mapper} (o : Obj) : M loc := fun st =>
  (Ok (length (st_objs st)),
   mkState _ (st_fields st) (st_objs st ++ [o]) (st_warnings st)).

(** [warnings.warn(msg)] *)
Definition warn `{Mp : Mapper} (msg : string) : M unit := fun st =>
  (Ok tt, mkState _ (st_fields st) (st_objs st) (st_warnings st ++ [msg])).

(** [getattr(model, attr, None)] *)
Definition getattr_default `{Mp : Mapper} (st : state) (model : loc) (attr : string) : value :=
  match st_objs st !! model with
  | Some o => default VNone (dict_get attr (obj_attrs o))
  | None => VNone
  end.

Definition obj_setattr (attr : string) (v : value) (o : Obj) : Obj :=
  mkObj (dict_set attr v (obj_attrs o)) (obj_bool o).

(** [setattr(model, attr, v)] *)
Definition setattr `{Mp : Mapper} (model : loc) (attr : string) (v : value) : M unit := fun st =>
  match st_objs st !! model with
  | Some o =>
      (Ok tt, mkState _ (st_fields st) (<[model := obj_setattr attr v o]> (st_objs st))
                      (st_warnings st))
  | None => (Raise InvalidReference, st)
  end.

(** Truthiness of the [existing_model] argument; [None] is falsy. *)
Definition truthy `{Mp : Mapper} (st : state) (existing_model : option loc) : bool :=
  match existing_model with
  | None => false
  | Some l =>
      match st_objs st !! l with
      | Some o => obj_bool o (obj_attrs o)
      | None => false
      end
  end.

(** [for x in xs: body(x)], stopping at the first exception. *)
Fixpoint for_each `{Mp : Mapper} {A} (body : A -> M unit) (xs : list A) : M unit :=
  match xs with
  | [] => mret tt
  | x :: xs' => body x ;; for_each body xs'
  end.

(** A loop that threads an accumulator. *)
Fixpoint for_fold `{Mp : Mapper} {A B} (body : B -> A -> M B) (xs : list A) (acc : B) : M B :=
  match xs with
  | [] => mret acc
  | x :: xs' => acc' ← body acc x; for_fold body xs' acc'
  end.

Definition getattr_m `{Mp : Mapper} (model : loc) (attr : string) : M value := fun st =>
  (Ok (getattr_default st model attr), st).

Definition bool_of `{Mp : Mapper} (existing_model : option loc) : M bool := fun st =>
  (Ok (truthy st existing_model), st).

(** ** ModelSerializer *)

(** The value behind a name of [dir(cls)]: a [Field] object or anything else. *)
Inductive class_attr :=
| AttrField (l : loc)
| AttrOther.

(** The class a serializer is an instance of: whether it is
    [ModelSerializer] itself, its attributes as [dir(cls)] lists them, and
    its override of [_create_model], if any. *)
Record SerializerClass `{Mapper} := mkSerializerClass {
  cls_is_ModelSerializer : bool;
  cls_dir : list (string * class_attr);
  cls_create_model : option (pydict value -> M (option loc));
}.

Record ModelSerializer `{Mapper} := mkModelSerializer {
  _mapper_class : ModelClass;
  _fields : pydict loc;
  serializer_cls : SerializerClass;
}.

Section model_serializer.
Context `{Mp : Mapper} `{Pl : !Plugins} `{Sf : !SessionFields}.

Definition EXTRA_SERIALIZERS : list (serializer_class * (ModelProperty -> bool)) :=
  [ (DateTimeColumnSerializer, is_datetime_column);
    (DateColumnSerializer, is_date_column);
    (EnumSerializer, is_enum_column) ].

Definition model_class (self : ModelSerializer) : ModelClass := _mapper_class self.

Definition model_columns (self : ModelSerializer) : pydict ModelProperty :=
  mapper_c (_mapper_class self).

Definition model_composites (self : ModelSerializer) : pydict ModelProperty :=
  mapper_composites (_mapper_class self).

Definition model_properties (self : ModelSerializer) : pydict ModelProperty :=
  let model_properties := [] in
  let model_properties :=
    if dict_bool (model_columns self)
    then dict_update model_properties (model_columns self)
    else model_properties in
  let model_properties :=
    if dict_bool (model_composites self)
    then dict_update model_properties (model_composites self)
    else model_properties in
  model_properties.

Definition fields (self : ModelSerializer) : pydict loc := _fields self.


(** The body of the loop over [dir(cls)]: [isinstance(value, Field)]
    selects the attributes to record. *)
Definition declare_attr (fields : pydict loc) (entry : string * class_attr) : pydict loc :=
  let '(attr_name, value) := entry in
  match value with
  | AttrField l => dict_set attr_name l fields
  | AttrOther => fields
  end.

Definition _get_declared_fields (cls : SerializerClass) : pydict loc :=
  let fields := [] in
  if cls_is_ModelSerializer cls then fields
  else fold_left declare_attr (cls_dir cls) fields.

(** The body of the constructor's loop.  [Field()] is evaluated before
    [setdefault] looks at the key. *)
Definition collect_property (fields : pydict loc) (property_name : string) : M (pydict loc) :=
  if startswith_underscore property_name then mret fields
  else
    l ← alloc_field Field_new;
    mret (dict_setdefault property_name l fields).

Definition __init__ (cls : SerializerClass) (model_class : ModelClass) : M ModelSerializer :=
  let self := mkModelSerializer _ model_class (_get_declared_fields cls) cls in
  fields ← for_fold collect_property (dict_keys (model_properties self)) (_fields self);
  mret (mkModelSerializer _ model_class fields cls).

(** [field._serializer = s] *)
Definition assign_serializer (field : loc) (s : Serializer) : M unit :=
  f ← get_field field;
  put_field field (set_serializer f s).

Definition _assign_default_field_serializer
    (self : ModelSerializer) (field : loc) (property_name : string) : M unit :=
  let model_property := dict_get property_name (model_properties self) in
  f ← get_field field;
  match _serializer f, model_property with
  | None, Some model_property =>
      for_each (fun '(serializer_class, serializer_check) =>
                  if (serializer_check model_property : bool)
                  then assign_serializer field (mkSerializer _ serializer_class (Some model_property))
                  else mret tt)
               EXTRA_SERIALIZERS
  | _, _ => mret tt
  end.

(** The body of the loop of [dump]. *)
Definition dump_item (self : ModelSerializer) (model : loc)
    (serial : pydict value) (item : string * loc) : M (pydict value) :=
  let '(attr, field) := item in
  f ← get_field field;
  if load_only f then mret serial
  else
    value ← getattr_m model attr;
    serialized ←
      (if field_bool f then
         _assign_default_field_serializer self field attr ;;
         f' ← get_field field;
         lift_res (Field_dump f' value)
       else mret value);
    mret (dict_set attr serialized serial).

Definition dump (self : ModelSerializer) (model : loc) : M (pydict value) :=
  for_fold (dump_item self model) (_fields self) [].

Definition _create_model (self : ModelSerializer) (serialized : pydict value) : M (option loc) :=
  match cls_create_model (serializer_cls self) with
  | Some hook => hook serialized
  | None => l ← alloc_obj (cls_new (model_class self)); mret (Some l)
  end.

Definition unknown_field_warning (self : ModelSerializer) (field_name : string) : string :=
  "Field '" +:+ field_name +:+ "' not defined for " +:+ cls_name (_mapper_class self).

(** The body of the loop of [load]. *)
Definition load_item (self : ModelSerializer) (model : loc)
    (existing_model : option loc) (session : option Session)
    (item : string * value) : M unit :=
  let '(field_name, value) := item in
  match dict_get field_name (_fields self) with
  | None => warn (unknown_field_warning self field_name)
  | Some field =>
      f ← get_field field;
      if dump_only f then mret tt
      else
        updating ← bool_of existing_model;
        if creation_only f && updating then mret tt
        else
          _assign_default_field_serializer self field field_name ;;
          f' ← get_field field;
          deserialized ←
            lift_res (if field_session_based f'
                      then session_load f' value session
                      else Field_load f' value);
          setattr model field_name deserialized
  end.

Definition load (self : ModelSerializer) (serialized : pydict value)
    (existing_model : option loc) (session : option Session) : M loc :=
  updating ← bool_of existing_model;
  model ←
    match updating, existing_model with
    | true, Some existing => mret existing
    | _, _ =>
        model ← _create_model self serialized;
        match model with
        | Some model => mret model
        | None => raise (AssertionError "ModelSerializer._create_model cannot return None")
        end
    end;
  for_each (load_item self model existing_model session) serialized ;;
  mret model.

End model_serializer.

(** ** Vocabulary of the statements *)

(** The state after [field] has been overwritten with [f]. *)
Definition with_field `{Mp : Mapper} (field : loc) (f : Field) (st : state) : state :=
  mkState _ (<[field := f]> (st_fields st)) (st_objs st) (st_warnings st).

(** The serializer of the [Field] object at [field], if there is one. *)
Definition serializer_at `{Mp : Mapper} (st : state) (field : loc) : option Serializer :=
  f ← st_fields st !! field; _serializer f.

(** The serializer types of [EXTRA_SERIALIZERS] whose predicate holds of
    [p], in the order of the list. *)
Definition matching_serializers `{Mp : Mapper} (p : ModelProperty) : list serializer_class :=
  map fst (filter (fun entry => Is_true (snd entry p)) EXTRA_SERIALIZERS).

(** "The first serializer type whose predicate matches". *)
Definition first_matching `{Mp : Mapper} (p : ModelProperty) : option serializer_class :=
  head (matching_serializers p).

(** The one the loop leaves in place: the last that matches. *)
Definition last_matching `{Mp : Mapper} (p : ModelProperty) : option serializer_class :=
  last (matching_serializers p).

(** The value [dump] stores for a field that is not load-only: the
    attribute read with [None] as default and, when the field object is
    truthy, converted by the field's [dump] after the default serializer has
    been looked for; the raw attribute for a falsy field object. *)
Definition dumped_value `{Mp : Mapper} `{Pl : !Plugins}
    (self : ModelSerializer) (model : loc) (attr : string) (field : loc) (f : Field) : M value :=
  value ← getattr_m model attr;
  if field_bool f then
    _assign_default_field_serializer self field attr ;;
    f' ← get_field field;
    lift_res (Field_dump f' value)
  else mret value.

(** [dump] as the specification describes its result: one entry per field
    that is not load-only, in the order of the fields collection. *)
Fixpoint dump_spec `{Mp : Mapper} `{Pl : !Plugins}
    (self : ModelSerializer) (model : loc) (items : pydict loc) : M (pydict value) :=
  match items with
  | [] => mret []
  | (attr, field) :: rest =>
      f ← get_field field;
      if load_only f then dump_spec self model rest
      else
        v ← dumped_value self model attr field f;
        entries ← dump_spec self model rest;
        mret ((attr, v) :: entries)
  end.

(** The field objects of [st] that [dump] does not skip. *)
Definition dumps_field `{Mp : Mapper} (st : state) (item : string * loc) : bool :=
  match st_fields st !! item.2 with
  | Some f => negb (load_only f)
  | None => false
  end.

(** Claim C7 as the specification words it: every value of the result is
    the attribute converted through the field's [dump]. *)
Definition dump_converts_every_value `{Mp : Mapper} `{Pl : !Plugins}
    (self : ModelSerializer) (model : loc) (st : state) : Prop :=
  forall serial st' attr field f v,
    dump self model st = (Ok serial, st') ->
    dict_get attr (fields self) = Some field ->
    st_fields st' !! field = Some f ->
    load_only f = false ->
    dict_get attr serial = Some v ->
    Field_dump f (getattr_default st model attr) = Ok v.

(** A field keeps its flags; its serializer, once set, stays. *)
Definition field_extends `{Mp : Mapper} (f f' : Field) : Prop :=
  f' = f \/ exists s, _serializer f = None /\ f' = set_serializer f s.

Definition fields_extend `{Mp : Mapper} (st st' : state) : Prop :=
  Forall2 field_extends (st_fields st) (st_fields st').

(** What lazy assignment may do to a state: attach serializers. *)
Definition state_extends `{Mp : Mapper} (st st' : state) : Prop :=
  fields_extend st st' /\
  st_objs st' = st_objs st /\
  st_warnings st' = st_warnings st.

(** The value [load] assigns for a field: the [load] of a session-based
    field gets the session, any other field's [load] the value alone. *)
Definition deserialized_value `{Mp : Mapper} `{Pl : !Plugins} `{Sf : !SessionFields}
    (f : Field) (v : value) (session : option Session) : res value :=
  if field_session_based f then session_load f v session else Field_load f v.

(** "The key is deserialized and assigned onto the model attribute". *)
Definition apply_item `{Mp : Mapper} `{Pl : !Plugins} `{Sf : !SessionFields}
    (self : ModelSerializer) (model : loc) (session : option Session)
    (field_name : string) (v : value) (field : loc) : M unit :=
  _assign_default_field_serializer self field field_name ;;
  f' ← get_field field;
  deserialized ← lift_res (deserialized_value f' v session);
  setattr model field_name deserialized.

(** The keys of [items] that [load] can write in state [st]: they name a
    field that is not dump-only. *)
Definition writes_attr `{Mp : Mapper}
    (self : ModelSerializer) (st : state)
    (items : pydict value) (attr : string) : Prop :=
  exists value field f,
    In (attr, value) items /\
    dict_get attr (fields self) = Some field /\
    st_fields st !! field = Some f /\
    dump_only f = false.

(** An object whose attributes outside [written] are as before. *)
Definition obj_frame (written : string -> Prop) (o o' : Obj) : Prop :=
  obj_bool o' = obj_bool o /\
  forall attr, ~ written attr -> dict_get attr (obj_attrs o') = dict_get attr (obj_attrs o).

(** What the loop of [load] may do to a state: attach serializers, emit
    warnings and set attributes in [written] of the one object [model]. *)
Definition load_frame `{Mp : Mapper}
    (model : loc) (written : string -> Prop) (st st' : state) : Prop :=
  fields_extend st st' /\
  length (st_objs st') = length (st_objs st) /\
  (forall l o, st_objs st !! l = Some o ->
     exists o', st_objs st' !! l = Some o' /\ obj_frame written o o' /\
                (l <> model -> o' = o)) /\
  exists emitted, st_warnings st' = st_warnings st ++ emitted.

(** Every conversion a [dump] can call succeeds. *)
Definition dumps_never_raise `{Mp : Mapper} `{Pl : !Plugins} : Prop :=
  forall s v, exists d, serializer_dump s v = Ok d.

(** Every conversion a [load] can call succeeds. *)
Definition loads_never_raise `{Mp : Mapper} `{Pl : !Plugins} `{Sf : !SessionFields} : Prop :=
  forall f v session, exists d, deserialized_value f v session = Ok d.

(** Every entry of the fields collection refers to a [Field] object. *)
Definition fields_valid `{Mp : Mapper} (self : ModelSerializer) (st : state) : Prop :=
  forall name field, dict_get name (fields self) = Some field ->
                     is_Some (st_fields st !! field).

(** A plain pass-through field under [name]: no access-policy flag, no
    serializer, not session-based, and a property (if any) that no
    default-serializer predicate matches. *)
Definition plain_field `{Mp : Mapper}
    (self : ModelSerializer) (st : state) (name : string) (field : loc) : Prop :=
  exists f,
    st_fields st !! field = Some f /\
    load_only f = false /\ dump_only f = false /\ creation_only f = false /\
    _serializer f = None /\ field_session_based f = false /\
    forall p, dict_get name (model_properties self) = Some p ->
              is_datetime_column p = false /\ is_date_column p = false /\
              is_enum_column p = false.

Definition plain_fields `{Mp : Mapper} (self : ModelSerializer) (st : state) : Prop :=
  forall name field, In (name, field) (fields self) -> plain_field self st name field.

(** Claim C1 as the specification words it: an unset field whose property
    is known ends up with the first matching serializer type. *)
Definition attaches_first_match `{Mp : Mapper}
    (self : ModelSerializer) (field : loc) (property_name : string) (st : state) : Prop :=
  forall (f : Field) (p : ModelProperty),
    st_fields st !! field = Some f ->
    _serializer f = None ->
    dict_get property_name (model_properties self) = Some p ->
    serializer_at (_assign_default_field_serializer self field property_name st).2 field =
    (fun c => mkSerializer _ c (Some p)) <$> first_matching p.

(** ** A concrete mapper, plugins and model for the examples

    A property descriptor is the list of SQL type names its column type is
    an instance of; the predicates test membership like [isinstance]. *)

Definition has_type (t : string) (p : list string) : bool := existsb (String.eqb t) p.

Definition demo_mapper : Mapper := {|
  ModelProperty := list string;
  Session := unit;
  is_datetime_column := has_type "DateTime";
  is_date_column := has_type "Date";
  is_enum_column := has_type "Enum";
|}.

Definition demo_dump (s : @Serializer demo_mapper) (v : value) : res value :=
  match ser_class s, v with
  | _, VNone => Ok VNone
  | DateTimeColumnSerializer, VDateTime z => Ok (VInt z)
  | DateColumnSerializer, VDate z => Ok (VInt z)
  | EnumSerializer, VEnum m => Ok (VStr m)
  | _, _ => Raise (ConversionError "dump")
  end.

Definition demo_load_value (s : @Serializer demo_mapper) (v : value) : res value :=
  match ser_class s, v with
  | _, VNone => Ok VNone
  | DateTimeColumnSerializer, VInt z => Ok (VDateTime z)
  | DateColumnSerializer, VInt z => Ok (VDate z)
  | EnumSerializer, VStr m => Ok (VEnum m)
  | _, _ => Raise (ConversionError "load")
  end.

Definition demo_plugins : @Plugins demo_mapper := {|
  serializer_dump := demo_dump;
  serializer_load := demo_load_value;
|}.

(** Plugins that leave every value as it is. *)
Definition passthrough_plugins : @Plugins demo_mapper := {|
  serializer_dump := fun _ v => Ok v;
  serializer_load := fun _ v => Ok v;
|}.

Definition passthrough_session_fields : @SessionFields demo_mapper := {|
  session_load := fun _ v _ => Ok v;
|}.

Definition demo_session_fields : @SessionFields demo_mapper := {|
  session_load := fun f v _ => @Field_load demo_mapper demo_plugins f v;
|}.

(** A model with one column whose type passes both the datetime and the
    date check, and a serializer over it with one implicit field. *)
Definition stamp_property : @ModelProperty demo_mapper := ["DateTime"; "Date"].

Definition integer_property : @ModelProperty demo_mapper := ["Integer"].

Definition Event : @ModelClass demo_mapper :=
  mkModelClass _ "Event" [("id", integer_property); ("stamp", stamp_property)] []
               (mkObj [] default_bool).

Definition plain_cls : @SerializerClass demo_mapper :=
  mkSerializerClass _ false [("dump", AttrOther); ("load", AttrOther)] None.

Definition event_serializer : @ModelSerializer demo_mapper :=
  mkModelSerializer _ Event [("id", 0); ("stamp", 1)] plain_cls.

Definition event_state : @state demo_mapper :=
  mkState _ [Field_new; Field_new] [] [].

(** A field that was declared with a serializer of its own. *)
Definition iso_serializer : @Serializer demo_mapper :=
  mkSerializer _ (UserSerializer "IsoSerializer") None.

Definition declared_state : @state demo_mapper :=
  mkState _ [Field_new; set_serializer Field_new iso_serializer] [] [].

(** The model of the specification's scenario, with a private column, and
    a serializer subclass that declares [id] as a dump-only field. *)
Definition string_property : @ModelProperty demo_mapper := ["String"].
Definition datetime_property : @ModelProperty demo_mapper := ["DateTime"].

Definition User : @ModelClass demo_mapper :=
  mkModelClass _ "User"
    [("id", integer_property); ("name", string_property);
     ("created_at", datetime_property); ("_token", string_property)]
    [] (mkObj [] default_bool).

Definition dump_only_field : @Field demo_mapper :=
  mkField _ false true false None false true.

Definition UserSerializerCls : @SerializerClass demo_mapper :=
  mkSerializerClass _ false
    [("dump", AttrOther); ("id", AttrField 0); ("load", AttrOther)] None.

Definition user_state0 : @state demo_mapper := mkState _ [dump_only_field] [] [].

(** The serializer resolved for [User], a stored user and a store in which
    its three fields live. *)
Definition user_serializer : @ModelSerializer demo_mapper :=
  mkModelSerializer _ User [("id", 0); ("name", 1); ("created_at", 2)] UserSerializerCls.

Definition ann : Obj :=
  mkObj [("id", VInt 1); ("name", VStr "Ann"); ("created_at", VDateTime 1700)] default_bool.

Definition user_state : @state demo_mapper :=
  mkState _ [dump_only_field; Field_new; Field_new] [ann] [].

(** A field object that is falsy and carries a datetime serializer. *)
Definition falsy_field : @Field demo_mapper :=
  mkField _ false false false
          (Some (mkSerializer _ DateTimeColumnSerializer None)) false false.

Definition falsy_serializer : @ModelSerializer demo_mapper :=
  mkModelSerializer _ User [("created_at", 0)] UserSerializerCls.

Definition falsy_state : @state demo_mapper := mkState _ [falsy_field] [ann] [].

(** A model whose [__bool__] reads an attribute: a basket is truthy when
    it has a non-empty owner.  Its serializer has a creation-only field
    [token].  [empty_basket] is a stored basket without owner, hence falsy;
    [owned_basket] has an owner, hence is truthy until the owner is
    cleared. *)
Definition has_owner (attrs : pydict value) : bool :=
  match dict_get "owner" attrs with
  | Some (VStr s) => negb (String.eqb s "")
  | _ => false
  end.

Definition Basket : @ModelClass demo_mapper :=
  mkModelClass _ "Basket" [("owner", string_property); ("token", string_property)] []
               (mkObj [] has_owner).

Definition creation_only_field : @Field demo_mapper :=
  mkField _ false false true None false true.

Definition basket_serializer : @ModelSerializer demo_mapper :=
  mkModelSerializer _ Basket [("owner", 0); ("token", 1)] plain_cls.

Definition empty_basket : Obj :=
  mkObj [("owner", VStr ""); ("token", VStr "t0")] has_owner.

Definition basket_state : @state demo_mapper :=
  mkState _ [Field_new; creation_only_field] [empty_basket] [].

Definition owned_basket : Obj :=
  mkObj [("owner", VStr "Ann"); ("token", VStr "t0")] has_owner.

Definition owned_basket_state : @state demo_mapper :=
  mkState _ [Field_new; creation_only_field] [owned_basket] [].

(** A subclass whose [_create_model] returns [None]. *)
Definition broken_cls : @SerializerClass demo_mapper :=
  mkSerializerClass _ false [] (Some (fun _ => mret None)).

Definition broken_serializer : @ModelSerializer demo_mapper :=
  mkModelSerializer _ User [("id", 0); ("name", 1); ("created_at", 2)] broken_cls.

(** A model with plain columns only. *)
Definition Note : @ModelClass demo_mapper :=
  mkModelClass _ "Note" [("title", string_property); ("pages", integer_property)] []
               (mkObj [] default_bool).

Definition note_serializer : @ModelSerializer demo_mapper :=
  mkModelSerializer _ Note [("title", 0); ("pages", 1)] plain_cls.

Definition note_state : @state demo_mapper :=
  mkState _ [Field_new; Field_new]
          [mkObj [("pages", VInt 3); ("title", VStr "Minutes")] default_bool] [].

(** ** Further vocabulary and examples *)

(** The names the constructor looks at: those that do not start with an
    underscore. *)
Definition public_names (names : list string) : list string :=
  filter (fun n => Is_true (negb (startswith_underscore n))) names.

(** A model with two columns and a composite over them, which also
    shadows the column [start]. *)
Definition composite_property : @ModelProperty demo_mapper := ["Composite"].

Definition Span : @ModelClass demo_mapper :=
  mkModelClass _ "Span"
    [("start", integer_property); ("stop", integer_property)]
    [("range", composite_property); ("start", composite_property)]
    (mkObj [] default_bool).

Definition span_serializer : @ModelSerializer demo_mapper :=
  mkModelSerializer _ Span [] plain_cls.

(** The field object lazy assignment leaves behind when it is called on
    [f] under [property_name]. *)
Definition lazily_assigned `{Mp : Mapper}
    (self : ModelSerializer) (property_name : string) (f : Field) : Field :=
  match _serializer f, dict_get property_name (model_properties self) with
  | None, Some p =>
      match last_matching p with
      | Some c => set_serializer f (mkSerializer _ c (Some p))
      | None => f
      end
  | _, _ => f
  end.

(** The items of a serialized dict whose key names a field, and the
    warnings [load] emits for the others, in input order. *)
Definition known_items `{Mp : Mapper}
    (self : ModelSerializer) (items : pydict value) : pydict value :=
  filter (fun item => Is_true (dict_contains item.1 (fields self))) items.

Definition unknown_warnings `{Mp : Mapper}
    (self : ModelSerializer) (items : pydict value) : list string :=
  map (fun item : string * value => unknown_field_warning self item.1)
      (filter (fun item => Is_true (negb (dict_contains item.1 (fields self)))) items).

(** Every serializer's [load] inverts its [dump]. *)
Definition loads_invert_dumps `{Mp : Mapper} `{Pl : !Plugins} : Prop :=
  forall s v d, serializer_dump s v = Ok d -> serializer_load s d = Ok v.

(** A field without access restrictions: no policy flag, not
    session-based, and a truthy object (as every [Field] is unless a
    subclass says otherwise).  It may carry a serializer. *)
Definition open_field `{Mp : Mapper} (f : Field) : Prop :=
  load_only f = false /\ dump_only f = false /\ creation_only f = false /\
  field_session_based f = false /\ field_bool f = true.

Definition open_fields `{Mp : Mapper} (self : ModelSerializer) (st : state) : Prop :=
  forall name field, In (name, field) (fields self) ->
                     exists f, st_fields st !! field = Some f /\ open_field f.

(** A model with an integer and a datetime column, its serializer and a
    stored instance. *)
Definition Entry : @ModelClass demo_mapper :=
  mkModelClass _ "Entry" [("id", integer_property); ("at", datetime_property)] []
               (mkObj [] default_bool).

Definition entry_serializer : @ModelSerializer demo_mapper :=
  mkModelSerializer _ Entry [("id", 0); ("at", 1)] plain_cls.

Definition entry_state : @state demo_mapper :=
  mkState _ [Field_new; Field_new]
          [mkObj [("id", VInt 4); ("at", VDateTime 1700)] default_bool] [].

(** No field object of the store is a [SessionBasedField]. *)
Definition no_session_fields `{Mp : Mapper} (st : state) : Prop :=
  forall l f, st_fields st !! l = Some f -> field_session_based f = false.

(** ** Basic facts: dicts *)

Lemma dict_get_set_eq {V} (k : string) (v : V) (d : pydict V) :
  dict_get k (dict_set k v d) = Some v.
Proof.
  induction d as [|[k' v'] d IH]; simpl.
  - by rewrite String.eqb_refl.
  - destruct (String.eqb k k') eqn:E; simpl; rewrite ?E; [by rewrite String.eqb_refl | done].
Qed.

Lemma dict_get_set_ne {V} (k k' : string) (v : V) (d : pydict V) :
  k <> k' -> dict_get k' (dict_set k v d) = dict_get k' d.
Proof.
  intros Hne. induction d as [|[k0 v0] d IH]; simpl.
  - destruct (String.eqb_spec k' k); [congruence | done].
  - destruct (String.eqb_spec k k0) as [->|Hk]; simpl.
    + destruct (String.eqb_spec k' k0); [congruence | done].
    + destruct (String.eqb_spec k' k0); [done | apply IH].
Qed.

Lemma dict_get_Some_In {V} (k : string) (v : V) (d : pydict V) :
  dict_get k d = Some v -> In (k, v) d.
Proof.
  induction d as [|[k' v'] d IH]; simpl; [done|].
  destruct (String.eqb_spec k k') as [->|Hk]; [intros [= ->]; by left | intros; right; auto].
Qed.

Lemma dict_get_None_keys {V} (k : string) (d : pydict V) :
  dict_get k d = None <-> ~ In k (dict_keys d).
Proof.
  induction d as [|[k' v'] d IH]; simpl; [tauto|].
  destruct (String.eqb_spec k k') as [->|Hk].
  - split; [done | intros H; exfalso; apply H; by left].
  - rewrite IH. split; [intros H [?|?]; [congruence | tauto] | tauto].
Qed.

Lemma dict_get_is_Some_keys {V} (k : string) (d : pydict V) :
  is_Some (dict_get k d) <-> In k (dict_keys d).
Proof.
  destruct (dict_get k d) eqn:E.
  - split; [intros _ | by eauto].
    apply dict_get_Some_In in E. apply (in_map fst) in E. exact E.
  - split; [by intros [? ?] | intros Hin]. by apply dict_get_None_keys in E.
Qed.

Lemma dict_get_In_wf {V} (k : string) (v : V) (d : pydict V) :
  wf_dict d -> In (k, v) d -> dict_get k d = Some v.
Proof.
  unfold wf_dict. induction d as [|[k' v'] d IH]; simpl; [done|].
  intros Hnd [Heq|Hin].
  - injection Heq as -> ->. by rewrite String.eqb_refl.
  - apply NoDup_cons in Hnd as [Hni Hnd].
    destruct (String.eqb_spec k k') as [->|Hk]; [|by apply IH].
    exfalso. apply Hni. apply list_elem_of_In. apply (in_map fst) in Hin. exact Hin.
Qed.

Lemma dict_set_absent {V} (k : string) (v : V) (d : pydict V) :
  dict_get k d = None -> dict_set k v d = d ++ [(k, v)].
Proof.
  induction d as [|[k' v'] d IH]; simpl; [done|].
  destruct (String.eqb k k'); [done | intros H; by rewrite IH].
Qed.

Lemma dict_keys_set {V} (k : string) (v : V) (d : pydict V) :
  dict_keys (dict_set k v d) =
  if dict_contains k d then dict_keys d else dict_keys d ++ [k].
Proof.
  unfold dict_contains. induction d as [|[k' v'] d IH]; simpl; [done|].
  destruct (String.eqb_spec k k') as [->|Hk]; simpl; [done|].
  rewrite IH. by destruct (dict_get k d).
Qed.

Lemma dict_get_setdefault_old {V} (k k' : string) (v v' : V) (d : pydict V) :
  dict_get k' d = Some v' -> dict_get k' (dict_setdefault k v d) = Some v'.
Proof.
  unfold dict_setdefault. destruct (dict_get k d) eqn:E; [done|].
  intros H. rewrite <- dict_set_absent by done.
  destruct (String.eqb_spec k k') as [->|Hk]; [congruence|].
  by rewrite dict_get_set_ne.
Qed.

Lemma dict_get_setdefault_key {V} (k : string) (v : V) (d : pydict V) :
  is_Some (dict_get k (dict_setdefault k v d)).
Proof.
  unfold dict_setdefault. destruct (dict_get k d) eqn:E; [by rewrite E|].
  rewrite <- dict_set_absent by done. rewrite dict_get_set_eq. eauto.
Qed.

(** ** Basic facts: the monad and the stores *)

Section monad_facts.
Context `{Mp : Mapper}.

Lemma bind_ok {A B} (m : M A) (k : A -> M B) (st st' : state) (a : A) :
  m st = (Ok a, st') -> (m ≫= k) st = k a st'.
Proof. intros H. unfold mbind, M_bind. by rewrite H. Qed.

Lemma bind_raise {A B} (m : M A) (k : A -> M B) (st st' : state) (e : exn) :
  m st = (Raise e, st') -> (m ≫= k) st = (Raise e, st').
Proof. intros H. unfold mbind, M_bind. by rewrite H. Qed.

Lemma get_field_ok (l : loc) (f : Field) (st : state) :
  st_fields st !! l = Some f -> get_field l st = (Ok f, st).
Proof. intros H. unfold get_field. by rewrite H. Qed.

Lemma get_field_invalid (l : loc) (st : state) :
  st_fields st !! l = None -> get_field l st = (Raise InvalidReference, st).
Proof. intros H. unfold get_field. by rewrite H. Qed.

Lemma with_field_id (l : loc) (f : Field) (st : state) :
  st_fields st !! l = Some f -> with_field l f st = st.
Proof.
  intros H. unfold with_field. rewrite list_insert_id by done. by destruct st.
Qed.

Lemma with_field_twice (l : loc) (f g : Field) (st : state) :
  with_field l g (with_field l f st) = with_field l g st.
Proof. unfold with_field; simpl. by rewrite list_insert_insert_eq. Qed.

Lemma with_field_lookup (l : loc) (f g : Field) (st : state) :
  st_fields st !! l = Some f -> st_fields (with_field l g st) !! l = Some g.
Proof.
  intros H. simpl. apply list_lookup_insert_eq. by eapply lookup_lt_Some.
Qed.

Lemma assign_serializer_ok (l : loc) (f : Field) (s : Serializer) (st : state) :
  st_fields st !! l = Some f ->
  assign_serializer l s st = (Ok tt, with_field l (set_serializer f s) st).
Proof.
  intros H. unfold assign_serializer. by rewrite (bind_ok _ _ _ _ _ (get_field_ok _ _ _ H)).
Qed.

Lemma set_serializer_twice (f : Field) (s s' : Serializer) :
  set_serializer (set_serializer f s) s' = set_serializer f s'.
Proof. done. Qed.

End monad_facts.

(** ** Lazy default-serializer assignment *)

Section assign_facts.
Context `{Mp : Mapper}.

(** The loop over the (serializer type, predicate) pairs never stops early:
    every matching pair overwrites the serializer, so the last one stays. *)
Lemma assign_loop_last (l : loc) (p : ModelProperty)
    (xs : list (serializer_class * (ModelProperty -> bool))) :
  forall (st : state) (f : Field),
  st_fields st !! l = Some f ->
  for_each (fun '(serializer_class, serializer_check) =>
              if (serializer_check p : bool)
              then assign_serializer l (mkSerializer _ serializer_class (Some p))
              else mret tt) xs st =
  (Ok tt,
   match last (map fst (filter (fun entry => Is_true (snd entry p)) xs)) with
   | Some c => with_field l (set_serializer f (mkSerializer _ c (Some p))) st
   | None => st
   end).
Proof.
  induction xs as [|[c chk] xs IH]; intros st f Hf; simpl; [done|].
  destruct (chk p) eqn:E.
  - rewrite (bind_ok _ _ _ _ _ (assign_serializer_ok _ _ _ _ Hf)).
    rewrite (IH _ _ (with_field_lookup _ _ _ _ Hf)).
    rewrite filter_cons_True by (simpl; by rewrite E).
    simpl map. rewrite last_cons.
    destruct (last _); [by rewrite with_field_twice | done].
  - rewrite (bind_ok _ _ st st tt) by done.
    rewrite (IH _ _ Hf).
    rewrite filter_cons_False by (simpl; rewrite E; intros []). done.
Qed.

Lemma assign_default_unset (self : ModelSerializer) (l : loc) (name : string)
    (st : state) (f : Field) (p : ModelProperty) :
  st_fields st !! l = Some f ->
  _serializer f = None ->
  dict_get name (model_properties self) = Some p ->
  _assign_default_field_serializer self l name st =
  (Ok tt,
   match last_matching p with
   | Some c => with_field l (set_serializer f (mkSerializer _ c (Some p))) st
   | None => st
   end).
Proof.
  intros Hf Hs Hp. unfold _assign_default_field_serializer.
  rewrite (bind_ok _ _ _ _ _ (get_field_ok _ _ _ Hf)), Hs, Hp.
  by rewrite (assign_loop_last _ _ _ _ _ Hf).
Qed.

Lemma assign_default_set (self : ModelSerializer) (l : loc) (name : string)
    (st : state) (f : Field) :
  st_fields st !! l = Some f ->
  is_Some (_serializer f) ->
  _assign_default_field_serializer self l name st = (Ok tt, st).
Proof.
  intros Hf [s Hs]. unfold _assign_default_field_serializer.
  by rewrite (bind_ok _ _ _ _ _ (get_field_ok _ _ _ Hf)), Hs.
Qed.

Lemma assign_default_unknown (self : ModelSerializer) (l : loc) (name : string)
    (st : state) (f : Field) :
  st_fields st !! l = Some f ->
  dict_get name (model_properties self) = None ->
  _assign_default_field_serializer self l name st = (Ok tt, st).
Proof.
  intros Hf Hp. unfold _assign_default_field_serializer.
  rewrite (bind_ok _ _ _ _ _ (get_field_ok _ _ _ Hf)), Hp. by destruct (_serializer f).
Qed.

Lemma assign_default_invalid (self : ModelSerializer) (l : loc) (name : string)
    (st : state) :
  st_fields st !! l = None ->
  _assign_default_field_serializer self l name st = (Raise InvalidReference, st).
Proof.
  intros Hf. unfold _assign_default_field_serializer.
  by rewrite (bind_raise _ _ _ _ _ (get_field_invalid _ _ Hf)).
Qed.

End assign_facts.

(** ** Field resolution *)

Section init_facts.
Context `{Mp : Mapper}.

Lemma declared_fields_fold (cls : SerializerClass) :
  cls_is_ModelSerializer cls = false ->
  _get_declared_fields cls = fold_left declare_attr (cls_dir cls) [].
Proof. intros H. unfold _get_declared_fields. by rewrite H. Qed.

Lemma declare_attr_other (name : string) (xs : list (string * class_attr)) :
  forall acc, ~ In name (map fst xs) ->
  dict_get name (fold_left declare_attr xs acc) = dict_get name acc.
Proof.
  induction xs as [|[k a] xs IH]; intros acc Hni; simpl; [done|].
  simpl in Hni. rewrite IH by tauto.
  destruct a; simpl; [|done].
  apply dict_get_set_ne. intros ->. tauto.
Qed.

Lemma declare_attr_field (name : string) (l : loc) (xs : list (string * class_attr)) :
  forall acc, NoDup (map fst xs) -> In (name, AttrField l) xs ->
  dict_get name (fold_left declare_attr xs acc) = Some l.
Proof.
  induction xs as [|[k a] xs IH]; intros acc Hnd Hin; simpl; [done|].
  simpl in Hnd. apply NoDup_cons in Hnd as [Hk Hnd].
  destruct Hin as [Heq|Hin].
  - injection Heq as -> ->. rewrite declare_attr_other by (by rewrite <- list_elem_of_In).
    simpl. apply dict_get_set_eq.
  - by apply IH.
Qed.

Lemma collect_property_private (fields : pydict loc) (name : string) (st : state) :
  startswith_underscore name = true ->
  collect_property fields name st = (Ok fields, st).
Proof. intros H. unfold collect_property. by rewrite H. Qed.

Lemma collect_property_public (fields : pydict loc) (name : string) (st : state) :
  startswith_underscore name = false ->
  collect_property fields name st =
  (Ok (dict_setdefault name (length (st_fields st)) fields),
   mkState _ (st_fields st ++ [Field_new]) (st_objs st) (st_warnings st)).
Proof. intros H. unfold collect_property. by rewrite H. Qed.

(** The loop of the constructor: it never raises, keeps every entry it
    finds, adds an entry for every public name, allocates only default
    fields past the end of the store and touches nothing else. *)
Lemma collect_properties (names : list string) :
  forall (fields : pydict loc) (st : state),
  exists (fields' : pydict loc) (extra : list Field),
    for_fold collect_property names fields st =
      (Ok fields', mkState _ (st_fields st ++ extra) (st_objs st) (st_warnings st)) /\
    Forall (fun f => f = Field_new) extra /\
    (forall k l, dict_get k fields = Some l -> dict_get k fields' = Some l) /\
    (forall k, In k names -> startswith_underscore k = false ->
               is_Some (dict_get k fields')) /\
    (forall k l, dict_get k fields' = Some l ->
                 dict_get k fields = Some l \/
                 (length (st_fields st) <= l /\
                  (st_fields st ++ extra) !! l = Some Field_new)).
Proof.
  induction names as [|name names IH]; intros fields st; simpl.
  - exists fields, []. rewrite app_nil_r. destruct st; simpl.
    split_and!; [done | done | done | by intros ? [] | by left].
  - destruct (startswith_underscore name) eqn:Hpriv.
    + destruct (IH fields st) as (fields' & extra & Hrun & Hnew & Hkeep & Hall & Horigin).
      exists fields', extra.
      rewrite (bind_ok _ _ _ _ _ (collect_property_private _ _ _ Hpriv)).
      split_and!; try done.
      intros k [<-|Hin] Hpub; [congruence | by apply Hall].
    + set (l0 := length (st_fields st)).
      set (st1 := mkState _ (st_fields st ++ [Field_new]) (st_objs st) (st_warnings st)).
      destruct (IH (dict_setdefault name l0 fields) st1)
        as (fields' & extra & Hrun & Hnew & Hkeep & Hall & Horigin).
      exists fields', (Field_new :: extra).
      rewrite (bind_ok _ _ _ _ _ (collect_property_public _ _ _ Hpriv)). fold l0 st1.
      rewrite Hrun. simpl. rewrite <- app_assoc. simpl.
      split_and!; [done | by constructor | | | ].
      * intros k l Hk. apply Hkeep. by apply dict_get_setdefault_old.
      * intros k [<-|Hin] Hpub; [|by apply Hall].
        destruct (dict_get_setdefault_key name l0 fields) as [l Hl].
        rewrite (Hkeep _ _ Hl). eauto.
      * intros k l Hk. destruct (Horigin _ _ Hk) as [Hold|[Hge Hlook]].
        -- unfold dict_setdefault in Hold. case_match eqn:E; [by left|].
           rewrite <- dict_set_absent in Hold by done.
           destruct (String.eqb_spec name k) as [->|Hne].
           ++ rewrite dict_get_set_eq in Hold. injection Hold as <-. right.
              split; [done|]. rewrite lookup_app_r by done.
              subst l0. by rewrite Nat.sub_diag.
           ++ rewrite dict_get_set_ne in Hold by done. by left.
        -- right. simpl in Hge, Hlook. rewrite length_app in Hge. simpl in Hge.
           rewrite <- app_assoc in Hlook. simpl in Hlook. split; [lia | done].
Qed.

End init_facts.

Lemma dict_keys_update {V} (src : pydict V) :
  forall (d : pydict V) (k : string),
  In k (dict_keys (dict_update d src)) <-> In k (dict_keys d) \/ In k (dict_keys src).
Proof.
  unfold dict_update.
  induction src as [|[k0 v0] src IH]; intros d k; simpl; [tauto|].
  rewrite IH, dict_keys_set. destruct (dict_contains k0 d) eqn:E.
  - split; [tauto|]. intros [H|[<-|H]]; [tauto| |tauto].
    left. unfold dict_contains in E. apply dict_get_is_Some_keys.
    destruct (dict_get k0 d); [eauto | done].
  - rewrite in_app_iff. simpl. tauto.
Qed.

Lemma model_properties_keys `{Mp : Mapper} (self : ModelSerializer) (k : string) :
  In k (dict_keys (model_properties self)) <->
  In k (dict_keys (model_columns self)) \/ In k (dict_keys (model_composites self)).
Proof.
  unfold model_properties.
  destruct (model_columns self) as [|c cs] eqn:Ec;
    destruct (model_composites self) as [|p ps] eqn:Ep; simpl dict_bool; cbv iota.
  - simpl. tauto.
  - rewrite dict_keys_update. tauto.
  - rewrite dict_keys_update. simpl. tauto.
  - rewrite !dict_keys_update. simpl. tauto.
Qed.

(** ** States that differ by attached serializers only *)

Section extends_facts.
Context `{Mp : Mapper}.

Lemma field_extends_refl (f : Field) : field_extends f f.
Proof. by left. Qed.

Lemma field_extends_trans (f g h : Field) :
  field_extends f g -> field_extends g h -> field_extends f h.
Proof.
  intros [->|(s & Hs & ->)] [->|(s' & Hs' & ->)]; try (by left); try (right; by eauto).
Qed.

Lemma field_extends_flags (f f' : Field) :
  field_extends f f' ->
  load_only f' = load_only f /\ dump_only f' = dump_only f /\
  creation_only f' = creation_only f /\
  field_session_based f' = field_session_based f /\ field_bool f' = field_bool f.
Proof. by intros [->|(s & _ & ->)]. Qed.

Lemma field_extends_serializer (f f' : Field) (s : Serializer) :
  field_extends f f' -> _serializer f = Some s -> _serializer f' = Some s.
Proof. intros [->|(s' & Hs & ->)] H; [done | congruence]. Qed.

Lemma fields_extend_refl (st : state) : fields_extend st st.
Proof.
  apply Forall2_same_length_lookup_2; [done|].
  intros i f g Hf Hg. rewrite Hf in Hg. injection Hg as <-. apply field_extends_refl.
Qed.

Lemma fields_extend_trans (st1 st2 st3 : state) :
  fields_extend st1 st2 -> fields_extend st2 st3 -> fields_extend st1 st3.
Proof.
  unfold fields_extend. intros H12. generalize (st_fields st3).
  induction H12 as [|f g fs gs Hfg _ IH]; intros hs H23; inversion H23; subst;
    constructor; eauto using field_extends_trans.
Qed.

Lemma fields_extend_lookup (st st' : state) (l : loc) (f : Field) :
  fields_extend st st' -> st_fields st !! l = Some f ->
  exists f', st_fields st' !! l = Some f' /\ field_extends f f'.
Proof. intros H Hf. by eapply Forall2_lookup_l. Qed.

Lemma fields_extend_lookup_None (st st' : state) (l : loc) :
  fields_extend st st' -> st_fields st !! l = None -> st_fields st' !! l = None.
Proof.
  intros H Hf. apply lookup_ge_None. apply lookup_ge_None in Hf.
  apply Forall2_length in H. lia.
Qed.

Lemma state_extends_refl (st : state) : state_extends st st.
Proof. split; [apply fields_extend_refl | done]. Qed.

Lemma state_extends_trans (st1 st2 st3 : state) :
  state_extends st1 st2 -> state_extends st2 st3 -> state_extends st1 st3.
Proof.
  intros (H12 & Ho12 & Hw12) (H23 & Ho23 & Hw23).
  split; [by eapply fields_extend_trans | split; congruence].
Qed.

Lemma state_extends_lookup (st st' : state) (l : loc) (f : Field) :
  state_extends st st' -> st_fields st !! l = Some f ->
  exists f', st_fields st' !! l = Some f' /\ field_extends f f'.
Proof. intros (H & _ & _). by apply fields_extend_lookup. Qed.

Lemma state_extends_lookup_None (st st' : state) (l : loc) :
  state_extends st st' -> st_fields st !! l = None -> st_fields st' !! l = None.
Proof. intros (H & _ & _). by apply fields_extend_lookup_None. Qed.

Lemma state_extends_getattr (st st' : state) (model : loc) (attr : string) :
  state_extends st st' -> getattr_default st' model attr = getattr_default st model attr.
Proof. intros (_ & Ho & _). unfold getattr_default. by rewrite Ho. Qed.

Lemma state_extends_truthy (st st' : state) (em : option loc) :
  state_extends st st' -> truthy st' em = truthy st em.
Proof. intros (_ & Ho & _). unfold truthy. by rewrite Ho. Qed.

Lemma with_field_extends (st : state) (l : loc) (f : Field) (s : Serializer) :
  st_fields st !! l = Some f -> _serializer f = None ->
  state_extends st (with_field l (set_serializer f s) st).
Proof.
  intros Hf Hs. split; [|done]. unfold fields_extend. simpl.
  apply Forall2_same_length_lookup_2; [by rewrite length_insert|].
  intros i g g' Hg Hg'. destruct (decide (i = l)) as [->|Hne].
  - rewrite list_lookup_insert_eq in Hg' by (by eapply lookup_lt_Some).
    rewrite Hf in Hg. injection Hg as <-. injection Hg' as <-. right. eauto.
  - rewrite list_lookup_insert_ne in Hg' by done. rewrite Hg in Hg'.
    injection Hg' as <-. by left.
Qed.

(** A call of the lazy assignment only attaches serializers. *)
Lemma assign_default_extends (self : ModelSerializer) (l : loc) (name : string) (st : state) :
  state_extends st (_assign_default_field_serializer self l name st).2.
Proof.
  destruct (st_fields st !! l) as [f|] eqn:Hf.
  - destruct (_serializer f) as [s|] eqn:Hs.
    + rewrite (assign_default_set self l name st f) by (by rewrite ?Hs). apply state_extends_refl.
    + destruct (dict_get name (model_properties self)) as [p|] eqn:Hp.
      * rewrite (assign_default_unset self l name st f p) by done. simpl.
        destruct (last_matching p); [by apply with_field_extends | apply state_extends_refl].
      * rewrite (assign_default_unknown self l name st f) by done. apply state_extends_refl.
  - rewrite assign_default_invalid by done. apply state_extends_refl.
Qed.

(** It raises only on a dangling reference. *)
Lemma assign_default_ok (self : ModelSerializer) (l : loc) (name : string)
    (st : state) (f : Field) :
  st_fields st !! l = Some f ->
  exists st', _assign_default_field_serializer self l name st = (Ok tt, st').
Proof.
  intros Hf. destruct (_serializer f) as [s|] eqn:Hs.
  - rewrite (assign_default_set self l name st f) by (by rewrite ?Hs). eauto.
  - destruct (dict_get name (model_properties self)) as [p|] eqn:Hp.
    + rewrite (assign_default_unset self l name st f p) by done. eauto.
    + rewrite (assign_default_unknown self l name st f) by done. eauto.
Qed.

End extends_facts.

(** ** dump *)

Section dump_facts.
Context `{Mp : Mapper} `{Pl : !Plugins}.

Lemma bind_unfold {A B} (m : M A) (k : A -> M B) (st : state) :
  (m ≫= k) st =
  match m st with
  | (Ok a, st') => k a st'
  | (Raise e, st') => (Raise e, st')
  end.
Proof. done. Qed.

Lemma dump_item_eq (self : ModelSerializer) (model : loc) (serial : pydict value)
    (attr : string) (field : loc) (st : state) :
  dump_item self model serial (attr, field) st =
  (f ← get_field field;
   if load_only f then mret serial
   else v ← dumped_value self model attr field f; mret (dict_set attr v serial)) st.
Proof.
  unfold dump_item, dumped_value. rewrite !bind_unfold.
  destruct (get_field field st) as [[f|e] st1]; [|done].
  destruct (load_only f); [done|].
  rewrite !bind_unfold. unfold getattr_m.
  destruct (field_bool f); [|done].
  rewrite !bind_unfold.
  destruct (_assign_default_field_serializer self field attr st1) as [[[]|e] st2]; [|done].
  rewrite !bind_unfold.
  destruct (get_field field st2) as [[f'|e] st3]; [|done].
  unfold lift_res. by destruct (Field_dump f' _).
Qed.

(** What one entry's conversion does to the state: it attaches
    serializers, nothing else. *)
Lemma dumped_value_extends (self : ModelSerializer) (model : loc) (attr : string)
    (field : loc) (f : Field) (st : state) :
  state_extends st (dumped_value self model attr field f st).2.
Proof.
  unfold dumped_value. rewrite bind_unfold. unfold getattr_m.
  destruct (field_bool f); [|apply state_extends_refl].
  rewrite bind_unfold.
  pose proof (assign_default_extends self field attr st) as Hext.
  destruct (_assign_default_field_serializer self field attr st) as [[[]|e] st2]; [|done].
  rewrite bind_unfold. unfold get_field, lift_res.
  destruct (st_fields st2 !! field); [|done].
  by destruct (Field_dump _ _).
Qed.

(** The loop of [dump] builds the entries of [dump_spec] behind the ones
    it already has, as long as no key repeats. *)
Lemma dump_loop_refines (self : ModelSerializer) (model : loc) (items : pydict loc) :
  forall (acc : pydict value) (st : state),
  NoDup (dict_keys items) ->
  (forall k, In k (dict_keys items) -> dict_get k acc = None) ->
  for_fold (dump_item self model) items acc st =
  (entries ← dump_spec self model items; mret (acc ++ entries)) st.
Proof.
  induction items as [|[attr field] items IH]; intros acc st Hnd Hfresh;
    cbn [for_fold dump_spec].
  - rewrite bind_unfold. simpl. by rewrite app_nil_r.
  - simpl in Hnd. apply NoDup_cons in Hnd as [Hattr Hnd].
    rewrite bind_unfold, dump_item_eq, !bind_unfold.
    destruct (get_field field st) as [[f|e] st1]; [|done].
    destruct (load_only f).
    + simpl. rewrite IH; [done | done | intros k Hk; apply Hfresh; by right].
    + rewrite !bind_unfold.
      destruct (dumped_value self model attr field f st1) as [[v|e] st2]; [|done].
      simpl. rewrite dict_set_absent by (apply Hfresh; by left).
      rewrite IH; [|done|].
      * rewrite !bind_unfold.
        destruct (dump_spec self model items st2) as [[entries|e] st3]; [|done].
        simpl. by rewrite <- app_assoc.
      * intros k Hk. rewrite <- dict_set_absent by (apply Hfresh; by left).
        rewrite dict_get_set_ne; [apply Hfresh; by right|].
        intros ->. apply Hattr. by apply list_elem_of_In.
Qed.

Lemma dumps_field_extends (st st' : state) (item : string * loc) :
  state_extends st st' -> dumps_field st' item = dumps_field st item.
Proof.
  intros Hext. unfold dumps_field.
  destruct (st_fields st !! item.2) as [f|] eqn:Hf.
  - destruct (state_extends_lookup _ _ _ _ Hext Hf) as (f' & -> & Hff).
    by destruct (field_extends_flags _ _ Hff) as (-> & _).
  - by rewrite (state_extends_lookup_None _ _ _ Hext Hf).
Qed.

(** The keys of a successful [dump_spec] and its effect on the state. *)
Lemma dump_spec_keys (self : ModelSerializer) (model : loc) (items : pydict loc) :
  forall (st st' : state) (entries : pydict value),
  dump_spec self model items st = (Ok entries, st') ->
  dict_keys entries = dict_keys (filter (fun item => Is_true (dumps_field st item)) items) /\
  state_extends st st'.
Proof.
  induction items as [|[attr field] items IH]; intros st st' entries; simpl.
  - intros [= <- <-]. split; [done | apply state_extends_refl].
  - rewrite bind_unfold. unfold get_field at 1.
    destruct (st_fields st !! field) as [f|] eqn:Hf; [|done].
    destruct (load_only f) eqn:Hlo.
    + intros Hrun. destruct (IH _ _ _ Hrun) as [Hkeys Hext]. split; [|done].
      rewrite filter_cons_False; [done|]. unfold dumps_field. simpl. rewrite Hf, Hlo. intros [].
    + rewrite bind_unfold.
      pose proof (dumped_value_extends self model attr field f st) as Hext1.
      destruct (dumped_value self model attr field f st) as [[v|e] st1]; [|done].
      rewrite bind_unfold.
      destruct (dump_spec self model items st1) as [[tl|e] st2] eqn:Hrest; [|done].
      intros [= <- <-]. destruct (IH _ _ _ Hrest) as [Hkeys Hext2].
      split; [|by eapply state_extends_trans].
      rewrite filter_cons_True by (unfold dumps_field; simpl; by rewrite Hf, Hlo).
      simpl. f_equal. rewrite Hkeys. f_equal. apply list_filter_iff.
      intros item. by rewrite (dumps_field_extends st st1).
Qed.

(** With valid references and conversions that succeed [dump_spec]
    returns a dict. *)
Lemma dump_spec_ok (self : ModelSerializer) (model : loc) (items : pydict loc) :
  forall st,
  (forall attr field, In (attr, field) items -> is_Some (st_fields st !! field)) ->
  dumps_never_raise ->
  exists entries st', dump_spec self model items st = (Ok entries, st').
Proof.
  induction items as [|[attr field] items IH]; intros st Hv Hnr; cbn [dump_spec].
  - by eexists _, _.
  - destruct (Hv attr field (or_introl eq_refl)) as [f Hf].
    rewrite (bind_ok _ _ _ _ _ (get_field_ok _ _ _ Hf)).
    assert (Hrest : forall st1, state_extends st st1 ->
      exists entries st', dump_spec self model items st1 = (Ok entries, st')).
    { intros st1 Hext. apply IH; [|done]. intros a fl Hin.
      destruct (Hv a fl (or_intror Hin)) as [g Hg].
      destruct (state_extends_lookup _ _ _ _ Hext Hg) as (g' & -> & _). eauto. }
    destruct (load_only f); [apply Hrest, state_extends_refl|].
    pose proof (dumped_value_extends self model attr field f st) as Hext.
    assert (Hval : exists v st1, dumped_value self model attr field f st = (Ok v, st1)).
    { unfold dumped_value. rewrite bind_unfold. unfold getattr_m.
      destruct (field_bool f); [|by eexists _, _]. rewrite bind_unfold.
      destruct (assign_default_ok self field attr st f Hf) as [st1 Hrun].
      pose proof (assign_default_extends self field attr st) as Hext1.
      rewrite Hrun in *. simpl in Hext1.
      destruct (state_extends_lookup _ _ _ _ Hext1 Hf) as (f' & Hf' & _).
      rewrite (bind_ok _ _ _ _ _ (get_field_ok _ _ _ Hf')).
      unfold lift_res, Field_dump. destruct (_serializer f') as [s|]; [|by eexists _, _].
      destruct (Hnr s (getattr_default st model attr)) as [d ->]. by eexists _, _. }
    destruct Hval as (v & st1 & Hval). rewrite Hval in Hext. simpl in Hext.
    rewrite (bind_ok _ _ _ _ _ Hval).
    destruct (Hrest st1 Hext) as (entries & st' & Hrun).
    rewrite (bind_ok _ _ _ _ _ Hrun). by eexists _, _.
Qed.

End dump_facts.

(** ** load: what the loop may touch *)

Section frame_facts.
Context `{Mp : Mapper}.

Lemma obj_frame_refl (W : string -> Prop) (o : Obj) : obj_frame W o o.
Proof. by split. Qed.

Lemma load_frame_refl (m : loc) (W : string -> Prop) (st : state) : load_frame m W st st.
Proof.
  split_and!; [apply fields_extend_refl | done | | exists []; by rewrite app_nil_r].
  intros l o Ho. exists o. split_and!; [done | apply obj_frame_refl | done].
Qed.

Lemma load_frame_mono (m : loc) (W W' : string -> Prop) (st st' : state) :
  (forall a, W a -> W' a) -> load_frame m W st st' -> load_frame m W' st st'.
Proof.
  intros HW (Hf & Hlen & Hobj & Hw). split_and!; [done | done | | done].
  intros l o Ho. destruct (Hobj _ _ Ho) as (o' & Ho' & [Hb Ha] & Hne).
  exists o'. split_and!; [done | | done]. split; [done|].
  intros attr Hattr. apply Ha. intros HWa. apply Hattr. by apply HW.
Qed.

Lemma load_frame_trans (m : loc) (W1 W2 : string -> Prop) (st1 st2 st3 : state) :
  load_frame m W1 st1 st2 -> load_frame m W2 st2 st3 ->
  load_frame m (fun a => W1 a \/ W2 a) st1 st3.
Proof.
  intros (Hf1 & Hlen1 & Hobj1 & [w1 Hw1]) (Hf2 & Hlen2 & Hobj2 & [w2 Hw2]).
  split_and!; [by eapply fields_extend_trans | congruence | |].
  - intros l o Ho. destruct (Hobj1 _ _ Ho) as (o1 & Ho1 & [Hb1 Ha1] & Hne1).
    destruct (Hobj2 _ _ Ho1) as (o2 & Ho2 & [Hb2 Ha2] & Hne2).
    exists o2. split_and!; [done | | ].
    + split; [congruence|]. intros attr Hattr.
      rewrite Ha2 by tauto. apply Ha1. tauto.
    + intros Hne. rewrite Hne2 by done. by apply Hne1.
  - exists (w1 ++ w2). by rewrite Hw2, Hw1, app_assoc.
Qed.

Lemma state_extends_load_frame (m : loc) (W : string -> Prop) (st st' : state) :
  state_extends st st' -> load_frame m W st st'.
Proof.
  intros (Hf & Ho & Hw). split_and!; [done | by rewrite Ho | | exists []; by rewrite app_nil_r].
  intros l o Hl. exists o. rewrite Ho. split_and!; [done | apply obj_frame_refl | done].
Qed.


Lemma fields_extend_lookup_r (st st' : state) (l : loc) (f' : Field) :
  fields_extend st st' -> st_fields st' !! l = Some f' ->
  exists f, st_fields st !! l = Some f /\ field_extends f f'.
Proof. intros H Hf. by eapply Forall2_lookup_r. Qed.

Lemma writes_attr_frame (self : ModelSerializer) (m : loc) (W : string -> Prop)
    (st st' : state) (items : pydict value) (a : string) :
  load_frame m W st st' ->
  writes_attr self st' items a <-> writes_attr self st items a.
Proof.
  intros (Hf & _). unfold writes_attr. split.
  - intros (v & field & f' & Hin & Hd & Hl & Hdo).
    destruct (fields_extend_lookup_r _ _ _ _ Hf Hl) as (f & Hl0 & Hff).
    destruct (field_extends_flags _ _ Hff) as (_ & Hdo' & _).
    exists v, field, f. rewrite <- Hdo'. done.
  - intros (v & field & f & Hin & Hd & Hl & Hdo).
    destruct (fields_extend_lookup _ _ _ _ Hf Hl) as (f' & Hl0 & Hff).
    destruct (field_extends_flags _ _ Hff) as (_ & Hdo' & _).
    exists v, field, f'. rewrite Hdo'. done.
Qed.

Lemma fields_extend_same (st st' : state) :
  st_fields st' = st_fields st -> fields_extend st st'.
Proof. intros H. unfold fields_extend. rewrite H. apply (fields_extend_refl st). Qed.

Lemma setattr_ok (m : loc) (k : string) (d : value) (st : state) (o : Obj) :
  st_objs st !! m = Some o ->
  setattr m k d st =
  (Ok tt, mkState _ (st_fields st) (<[m := obj_setattr k d o]> (st_objs st)) (st_warnings st)).
Proof. intros H. unfold setattr. by rewrite H. Qed.

Lemma setattr_frame (m : loc) (k : string) (d : value) (st : state) :
  load_frame m (fun a => a = k) st (setattr m k d st).2.
Proof.
  unfold setattr. destruct (st_objs st !! m) as [o|] eqn:Ho; [|apply load_frame_refl].
  simpl. split_and!; [by apply fields_extend_same | simpl; by rewrite length_insert | |
                      exists []; simpl; by rewrite app_nil_r].
  intros l o0 Hl. simpl. destruct (decide (l = m)) as [->|Hne].
  - rewrite list_lookup_insert_eq by (by eapply lookup_lt_Some).
    eexists. split_and!; [done | | done].
    rewrite Ho in Hl. injection Hl as <-. split; [done|].
    intros attr Hattr. simpl. apply dict_get_set_ne. congruence.
  - rewrite list_lookup_insert_ne by done. exists o0.
    split_and!; [done | apply obj_frame_refl | done].
Qed.

Lemma warn_frame (m : loc) (W : string -> Prop) (msg : string) (st : state) :
  load_frame m W st (warn msg st).2.
Proof.
  split_and!; [by apply fields_extend_same | done | | by exists [msg]].
  intros l o Ho. exists o. split_and!; [done | apply obj_frame_refl | done].
Qed.

End frame_facts.

(** ** load: one key at a time *)

Section load_facts.
Context `{Mp : Mapper} `{Pl : !Plugins} `{Sf : !SessionFields}.

Lemma load_item_unknown (self : ModelSerializer) (m : loc) (em : option loc)
    (session : option Session) (k : string) (v : value) (st : state) :
  dict_get k (fields self) = None ->
  load_item self m em session (k, v) st = warn (unknown_field_warning self k) st.
Proof. intros H. unfold load_item. unfold fields in H. by rewrite H. Qed.

Lemma load_item_invalid (self : ModelSerializer) (m : loc) (em : option loc)
    (session : option Session) (k : string) (v : value) (st : state) (field : loc) :
  dict_get k (fields self) = Some field ->
  st_fields st !! field = None ->
  load_item self m em session (k, v) st = (Raise InvalidReference, st).
Proof.
  intros H Hf. unfold load_item. unfold fields in H. rewrite H.
  by rewrite (bind_raise _ _ _ _ _ (get_field_invalid _ _ Hf)).
Qed.

Lemma load_item_known (self : ModelSerializer) (m : loc) (em : option loc)
    (session : option Session) (k : string) (v : value) (st : state)
    (field : loc) (f : Field) :
  dict_get k (fields self) = Some field ->
  st_fields st !! field = Some f ->
  load_item self m em session (k, v) st =
  if dump_only f then (Ok tt, st)
  else if creation_only f && truthy st em then (Ok tt, st)
  else apply_item self m session k v field st.
Proof.
  intros H Hf. unfold load_item. unfold fields in H. rewrite H.
  rewrite (bind_ok _ _ _ _ _ (get_field_ok _ _ _ Hf)).
  destruct (dump_only f); [done|].
  rewrite bind_unfold. unfold bool_of.
  by destruct (creation_only f && truthy st em).
Qed.

(** The assignment of one key in closed form. *)
Lemma apply_item_eq (self : ModelSerializer) (m : loc) (session : option Session)
    (k : string) (v : value) (field : loc) (f : Field) (st : state) :
  st_fields st !! field = Some f ->
  exists st1 f',
    _assign_default_field_serializer self field k st = (Ok tt, st1) /\
    state_extends st st1 /\
    st_fields st1 !! field = Some f' /\
    field_extends f f' /\
    apply_item self m session k v field st =
    match deserialized_value f' v session with
    | Ok d => setattr m k d st1
    | Raise e => (Raise e, st1)
    end.
Proof.
  intros Hf. destruct (assign_default_ok self field k st f Hf) as [st1 Hrun].
  pose proof (assign_default_extends self field k st) as Hext. rewrite Hrun in Hext.
  destruct (state_extends_lookup _ _ _ _ Hext Hf) as (f' & Hf' & Hff).
  exists st1, f'. split_and!; try done.
  unfold apply_item. rewrite (bind_ok _ _ _ _ _ Hrun).
  rewrite (bind_ok _ _ _ _ _ (get_field_ok _ _ _ Hf')).
  rewrite bind_unfold. unfold lift_res.
  by destruct (deserialized_value f' v session).
Qed.

Lemma apply_item_frame (self : ModelSerializer) (m : loc) (session : option Session)
    (k : string) (v : value) (field : loc) (st : state) :
  load_frame m (fun a => a = k) st (apply_item self m session k v field st).2.
Proof.
  destruct (st_fields st !! field) as [f|] eqn:Hf.
  - destruct (apply_item_eq self m session k v field f st Hf)
      as (st1 & f' & _ & Hext & _ & _ & ->).
    destruct (deserialized_value f' v session) as [d|e]; simpl.
    + apply (load_frame_mono m (fun a => False \/ a = k)); [tauto|].
      eapply load_frame_trans; [by apply state_extends_load_frame | apply setattr_frame].
    + by apply state_extends_load_frame.
  - unfold apply_item. rewrite (bind_raise _ _ _ _ _ (assign_default_invalid _ _ _ _ Hf)).
    apply load_frame_refl.
Qed.

(** One iteration touches at most the attribute named by its key, and
    only when the key is one [load] can write. *)
Lemma load_item_frame (self : ModelSerializer) (m : loc) (em : option loc)
    (session : option Session) (k : string) (v : value) (st : state) :
  load_frame m (writes_attr self st [(k, v)]) st
             (load_item self m em session (k, v) st).2.
Proof.
  destruct (dict_get k (fields self)) as [field|] eqn:Hk.
  - destruct (st_fields st !! field) as [f|] eqn:Hf.
    + rewrite (load_item_known _ _ _ _ _ _ _ _ _ Hk Hf).
      destruct (dump_only f) eqn:Hdo; [apply load_frame_refl|].
      destruct (creation_only f && truthy st em) eqn:Hco; [apply load_frame_refl|].
      eapply load_frame_mono; [|apply apply_item_frame].
      intros a ->. exists v, field, f. split_and!; try done. by left.
    + rewrite (load_item_invalid _ _ _ _ _ _ _ _ Hk Hf). apply load_frame_refl.
  - rewrite load_item_unknown by done. apply warn_frame.
Qed.

(** The whole loop touches at most the attributes [load] can write. *)
Lemma load_loop_frame (self : ModelSerializer) (m : loc) (em : option loc)
    (session : option Session) (items : pydict value) :
  forall st,
  load_frame m (writes_attr self st items) st
             (for_each (load_item self m em session) items st).2.
Proof.
  induction items as [|[k v] items IH]; intros st; cbn [for_each].
  - apply load_frame_refl.
  - rewrite bind_unfold.
    pose proof (load_item_frame self m em session k v st) as Hstep.
    destruct (load_item self m em session (k, v) st) as [[[]|e] st1]; simpl in Hstep.
    + specialize (IH st1).
      eapply load_frame_mono; [|eapply load_frame_trans; [exact Hstep | exact IH]].
      intros a [Ha|Ha].
      * destruct Ha as (v0 & field & f & Hin & Hrest). exists v0, field, f.
        split; [|done]. destruct Hin as [Hin|[]]. by left.
      * apply (writes_attr_frame _ _ _ _ _ _ _ Hstep) in Ha.
        destruct Ha as (v0 & field & f & Hin & Hrest). exists v0, field, f.
        split; [by right | done].
    + eapply load_frame_mono; [|exact Hstep].
      intros a (v0 & field & f & Hin & Hrest). exists v0, field, f.
      split; [|done]. destruct Hin as [Hin|[]]. by left.
Qed.

End load_facts.

Section load_total.
Context `{Mp : Mapper} `{Pl : !Plugins} `{Sf : !SessionFields}.



Lemma fields_valid_frame (self : ModelSerializer) (m : loc) (W : string -> Prop)
    (st st' : state) :
  load_frame m W st st' -> fields_valid self st -> fields_valid self st'.
Proof.
  intros (Hf & _) Hv name field Hname. destruct (Hv _ _ Hname) as [f Hl].
  destruct (fields_extend_lookup _ _ _ _ Hf Hl) as (f' & -> & _). eauto.
Qed.

Lemma load_item_ok (self : ModelSerializer) (m : loc) (em : option loc)
    (session : option Session) (k : string) (v : value) (st : state) :
  fields_valid self st -> loads_never_raise -> is_Some (st_objs st !! m) ->
  exists st', load_item self m em session (k, v) st = (Ok tt, st').
Proof.
  intros Hv Hnr [o Ho]. destruct (dict_get k (fields self)) as [field|] eqn:Hk.
  - destruct (Hv _ _ Hk) as [f Hf]. rewrite (load_item_known _ _ _ _ _ _ _ _ _ Hk Hf).
    destruct (dump_only f); [by eauto|].
    destruct (creation_only f && truthy st em); [by eauto|].
    destruct (apply_item_eq self m session k v field f st Hf)
      as (st1 & f' & _ & (_ & Hobjs & _) & _ & _ & ->).
    destruct (Hnr f' v session) as [d ->].
    rewrite (setattr_ok m k d st1 o) by (by rewrite Hobjs). eauto.
  - rewrite load_item_unknown by done. unfold warn. eauto.
Qed.

(** With valid references and conversions that succeed the loop runs to
    its end. *)
Lemma load_loop_ok (self : ModelSerializer) (m : loc) (em : option loc)
    (session : option Session) (items : pydict value) :
  forall st,
  fields_valid self st -> loads_never_raise -> is_Some (st_objs st !! m) ->
  exists st', for_each (load_item self m em session) items st = (Ok tt, st').
Proof.
  induction items as [|[k v] items IH]; intros st Hv Hnr Hm; cbn [for_each].
  - by eexists.
  - destruct (load_item_ok self m em session k v st Hv Hnr Hm) as [st1 Hstep].
    pose proof (load_item_frame self m em session k v st) as Hfr.
    rewrite (bind_ok _ _ _ _ _ Hstep). rewrite Hstep in Hfr. simpl in Hfr.
    apply IH; [by eapply fields_valid_frame | done |].
    destruct Hm as [o Ho]. destruct Hfr as (_ & _ & Hobj & _).
    destruct (Hobj _ _ Ho) as (o' & -> & _). eauto.
Qed.

Lemma for_each_app {A} (body : A -> M unit) (xs ys : list A) (st st1 : state) :
  for_each body xs st = (Ok tt, st1) ->
  for_each body (xs ++ ys) st = for_each body ys st1.
Proof.
  revert st. induction xs as [|x xs IH]; intros st; cbn [for_each app].
  - by intros [= <-].
  - rewrite !bind_unfold. destruct (body x st) as [[[]|e] st2]; [apply IH | done].
Qed.

(** The update path of [load]. *)
Lemma load_update_path (self : ModelSerializer) (serialized : pydict value)
    (existing : loc) (session : option Session) (st : state) :
  truthy st (Some existing) = true ->
  load self serialized (Some existing) session st =
  match for_each (load_item self existing (Some existing) session) serialized st with
  | (Ok _, st') => (Ok existing, st')
  | (Raise e, st') => (Raise e, st')
  end.
Proof.
  intros Ht. unfold load. rewrite bind_unfold. unfold bool_of. rewrite Ht.
  rewrite !bind_unfold. simpl. rewrite bind_unfold.
  by destruct (for_each _ serialized st) as [[[]|e] st'].
Qed.

(** The creation path of [load]. *)
Lemma load_creation_path (self : ModelSerializer) (serialized : pydict value)
    (em : option loc) (session : option Session) (st : state) :
  truthy st em = false ->
  load self serialized em session st =
  match _create_model self serialized st with
  | (Ok (Some model), st1) =>
      match for_each (load_item self model em session) serialized st1 with
      | (Ok _, st') => (Ok model, st')
      | (Raise e, st') => (Raise e, st')
      end
  | (Ok None, st1) =>
      (Raise (AssertionError "ModelSerializer._create_model cannot return None"), st1)
  | (Raise e, st1) => (Raise e, st1)
  end.
Proof.
  intros Ht. unfold load. rewrite bind_unfold. unfold bool_of. rewrite Ht.
  destruct em as [l|]; cbv iota;
    (rewrite !bind_unfold;
     destruct (_create_model self serialized st) as [[[model|]|e] st1]; [|done|done];
     simpl; rewrite bind_unfold;
     by destruct (for_each _ serialized st1) as [[[]|e] st']).
Qed.

Lemma create_model_default (self : ModelSerializer) (serialized : pydict value) (st : state) :
  cls_create_model (serializer_cls self) = None ->
  _create_model self serialized st =
  (Ok (Some (length (st_objs st))),
   mkState _ (st_fields st) (st_objs st ++ [cls_new (model_class self)]) (st_warnings st)).
Proof. intros H. unfold _create_model. by rewrite H. Qed.

End load_total.

(** ** Plain fields: dump and load are the identity on values *)

Section plain_facts.
Context `{Mp : Mapper} `{Pl : !Plugins} `{Sf : !SessionFields}.

Lemma no_match_last (p : ModelProperty) :
  is_datetime_column p = false -> is_date_column p = false -> is_enum_column p = false ->
  last_matching p = None.
Proof.
  intros H1 H2 H3. unfold last_matching, matching_serializers, EXTRA_SERIALIZERS.
  rewrite !filter_cons_False by (simpl; rewrite ?H1, ?H2, ?H3; intros []). done.
Qed.

Lemma plain_field_same_fields (self : ModelSerializer) (st st' : state)
    (name : string) (field : loc) :
  st_fields st' = st_fields st -> plain_field self st name field ->
  plain_field self st' name field.
Proof. intros H (f & Hf & Hrest). exists f. by rewrite H. Qed.

Lemma assign_default_plain (self : ModelSerializer) (st : state) (name : string) (field : loc) :
  plain_field self st name field ->
  _assign_default_field_serializer self field name st = (Ok tt, st).
Proof.
  intros (f & Hf & _ & _ & _ & Hs & _ & Hp).
  destruct (dict_get name (model_properties self)) as [p|] eqn:E.
  - rewrite (assign_default_unset self field name st f p Hf Hs E).
    destruct (Hp p eq_refl) as (H1 & H2 & H3). by rewrite no_match_last.
  - by rewrite (assign_default_unknown self field name st f Hf E).
Qed.

Lemma dump_spec_plain (self : ModelSerializer) (model : loc) (st : state)
    (items : pydict loc) :
  (forall name field, In (name, field) items -> plain_field self st name field) ->
  dump_spec self model items st =
  (Ok (map (fun item => (item.1, getattr_default st model item.1)) items), st).
Proof.
  induction items as [|[name field] items IH]; intros Hplain; cbn [dump_spec map]; [done|].
  pose proof (Hplain name field (or_introl eq_refl)) as Hpf.
  destruct Hpf as (f & Hf & Hlo & _ & _ & Hs & _ & _).
  rewrite (bind_ok _ _ _ _ _ (get_field_ok _ _ _ Hf)), Hlo.
  assert (Hv : dumped_value self model name field f st =
               (Ok (getattr_default st model name), st)).
  { unfold dumped_value. rewrite bind_unfold. unfold getattr_m.
    destruct (field_bool f); [|done].
    rewrite (bind_ok _ _ _ _ _ (assign_default_plain self st name field
                                  (Hplain name field (or_introl eq_refl)))).
    rewrite (bind_ok _ _ _ _ _ (get_field_ok _ _ _ Hf)).
    unfold lift_res, Field_dump. by rewrite Hs. }
  rewrite (bind_ok _ _ _ _ _ Hv).
  rewrite (bind_ok _ _ _ _ _ (IH (fun n fl Hin => Hplain n fl (or_intror Hin)))).
  done.
Qed.

Lemma load_item_plain (self : ModelSerializer) (m : loc) (em : option loc)
    (session : option Session) (k : string) (v : value) (st : state)
    (field : loc) (o : Obj) :
  dict_get k (fields self) = Some field ->
  plain_field self st k field ->
  st_objs st !! m = Some o ->
  load_item self m em session (k, v) st =
  (Ok tt, mkState _ (st_fields st) (<[m := obj_setattr k v o]> (st_objs st))
                  (st_warnings st)).
Proof.
  intros Hk Hplain Ho. pose proof Hplain as (f & Hf & _ & Hdo & Hco & Hs & Hsb & _).
  rewrite (load_item_known self m em session k v st field f Hk Hf), Hdo, Hco. simpl.
  unfold apply_item.
  rewrite (bind_ok _ _ _ _ _ (assign_default_plain self st k field Hplain)).
  rewrite (bind_ok _ _ _ _ _ (get_field_ok _ _ _ Hf)).
  rewrite bind_unfold. unfold lift_res, deserialized_value, Field_load. rewrite Hsb, Hs.
  by apply setattr_ok.
Qed.

Lemma load_loop_plain (self : ModelSerializer) (m : loc) (em : option loc)
    (session : option Session) (items : pydict value) :
  forall (st : state) (o : Obj),
  (forall k v, In (k, v) items ->
     exists field, dict_get k (fields self) = Some field /\ plain_field self st k field) ->
  st_objs st !! m = Some o ->
  for_each (load_item self m em session) items st =
  (Ok tt, mkState _ (st_fields st)
            (<[m := mkObj (dict_update (obj_attrs o) items) (obj_bool o)]> (st_objs st))
            (st_warnings st)).
Proof.
  induction items as [|[k v] items IH]; intros st o Hplain Ho; cbn [for_each].
  - unfold dict_update. simpl. destruct o as [attrs b]. simpl.
    rewrite list_insert_id by done. by destruct st.
  - destruct (Hplain k v (or_introl eq_refl)) as (field & Hk & Hpf).
    rewrite (bind_ok _ _ _ _ _ (load_item_plain self m em session k v st field o Hk Hpf Ho)).
    rewrite (IH _ (obj_setattr k v o)).
    + simpl. by rewrite list_insert_insert_eq.
    + intros k' v' Hin. destruct (Hplain k' v' (or_intror Hin)) as (field' & Hk' & Hpf').
      exists field'. split; [done|]. by apply (plain_field_same_fields self st).
    + simpl. apply list_lookup_insert_eq. by eapply lookup_lt_Some.
Qed.

End plain_facts.

Lemma dict_update_cons {V} (d : pydict V) (k : string) (v : V) (src : pydict V) :
  dict_update d ((k, v) :: src) = dict_update (dict_set k v d) src.
Proof. done. Qed.

Lemma dict_get_update_other {V} (src : pydict V) :
  forall (d : pydict V) (k : string),
  ~ In k (dict_keys src) -> dict_get k (dict_update d src) = dict_get k d.
Proof.
  induction src as [|[k0 v0] src IH]; intros d k Hni; [done|].
  simpl in Hni. rewrite dict_update_cons, IH by tauto.
  apply dict_get_set_ne. intros ->. tauto.
Qed.

Lemma dict_get_update_In {V} (src : pydict V) :
  forall (d : pydict V) (k : string) (v : V),
  wf_dict src -> In (k, v) src -> dict_get k (dict_update d src) = Some v.
Proof.
  unfold wf_dict.
  induction src as [|[k0 v0] src IH]; intros d k v Hnd Hin; [done|].
  simpl in Hnd. apply NoDup_cons in Hnd as [Hk0 Hnd]. rewrite dict_update_cons.
  destruct Hin as [Heq|Hin].
  - injection Heq as -> ->.
    rewrite dict_get_update_other by (by rewrite <- list_elem_of_In).
    apply dict_get_set_eq.
  - by apply IH.
Qed.

(** ** load: the keys it applies *)

Section load_applies.
Context `{Mp : Mapper} `{Pl : !Plugins} `{Sf : !SessionFields}.



End load_applies.

(** ** More facts about dicts: unique keys and order *)

Lemma filter_ext_In {A} (P Q : A -> Prop)
    `{!forall x, Decision (P x)} `{!forall x, Decision (Q x)} (l : list A) :
  (forall x, In x l -> P x <-> Q x) -> filter P l = filter Q l.
Proof.
  induction l as [|x l IH]; intros Hext; [done|].
  assert (Hl : filter P l = filter Q l) by (apply IH; intros y Hy; apply Hext; by right).
  pose proof (Hext x (or_introl eq_refl)) as Hx.
  destruct (decide (P x)) as [HP|HP].
  - rewrite !filter_cons_True by tauto. by rewrite Hl.
  - rewrite !filter_cons_False by tauto. done.
Qed.

Lemma filter_all {A} (P : A -> Prop) `{!forall x, Decision (P x)} (l : list A) :
  (forall x, P x) -> filter P l = l.
Proof.
  intros HP. induction l as [|x l IH]; [done|].
  rewrite filter_cons_True by done. by rewrite IH.
Qed.

Lemma filter_all_In {A} (P : A -> Prop) `{!forall x, Decision (P x)} (l : list A) :
  (forall x, In x l -> P x) -> filter P l = l.
Proof.
  induction l as [|x l IH]; intros HP; [done|].
  rewrite filter_cons_True by (apply HP; by left).
  rewrite IH; [done|]. intros y Hy. apply HP. by right.
Qed.

Lemma dict_contains_keys {V} (k : string) (d : pydict V) :
  dict_contains k d = true <-> In k (dict_keys d).
Proof.
  unfold dict_contains. rewrite <- dict_get_is_Some_keys.
  destruct (dict_get k d); split; try done; try (by eauto); by intros [? ?].
Qed.

Lemma dict_contains_false_keys {V} (k : string) (d : pydict V) :
  dict_contains k d = false <-> ~ In k (dict_keys d).
Proof.
  rewrite <- dict_contains_keys. by destruct (dict_contains k d).
Qed.

Lemma wf_dict_set {V} (k : string) (v : V) (d : pydict V) :
  wf_dict d -> wf_dict (dict_set k v d).
Proof.
  unfold wf_dict. intros Hwf. rewrite dict_keys_set.
  destruct (dict_contains k d) eqn:E; [done|].
  apply NoDup_app. split_and!; [done | | apply NoDup_singleton].
  intros x Hx ->%list_elem_of_singleton.
  apply dict_contains_false_keys in E. apply E. by apply list_elem_of_In.
Qed.

Lemma wf_dict_update {V} (src : pydict V) :
  forall d : pydict V, wf_dict d -> wf_dict (dict_update d src).
Proof.
  induction src as [|[k v] src IH]; intros d Hwf; [done|].
  rewrite dict_update_cons. by apply IH, wf_dict_set.
Qed.

Lemma wf_dict_nil {V} : wf_dict ([] : pydict V).
Proof. apply NoDup_nil_2. Qed.

Lemma dict_get_update {V} (src d : pydict V) (k : string) :
  wf_dict src ->
  dict_get k (dict_update d src) =
  match dict_get k src with
  | Some v => Some v
  | None => dict_get k d
  end.
Proof.
  intros Hwf. destruct (dict_get k src) as [v|] eqn:E.
  - apply dict_get_update_In; [done | by apply dict_get_Some_In].
  - apply dict_get_update_other. by apply dict_get_None_keys.
Qed.

(** [update] keeps the keys of the target in place and appends the new
    keys of the source in the source's order. *)
Lemma dict_keys_update_order {V} (src : pydict V) :
  forall d : pydict V,
  wf_dict src ->
  dict_keys (dict_update d src) =
  dict_keys d ++ filter (fun k => Is_true (negb (dict_contains k d))) (dict_keys src).
Proof.
  unfold wf_dict.
  induction src as [|[k v] src IH]; intros d Hwf.
  - simpl. by rewrite app_nil_r.
  - simpl in Hwf. apply NoDup_cons in Hwf as [Hk Hwf].
    rewrite dict_update_cons, IH, dict_keys_set by done. simpl.
    assert (Hsame : forall b : pydict V,
      (forall x, In x (dict_keys src) -> dict_contains x b = dict_contains x d) ->
      filter (fun x => Is_true (negb (dict_contains x b))) (dict_keys src) =
      filter (fun x => Is_true (negb (dict_contains x d))) (dict_keys src)).
    { intros b Hb. apply filter_ext_In. intros x Hx. by rewrite Hb. }
    destruct (dict_contains k d) eqn:E.
    + rewrite filter_cons_False by (simpl; rewrite E; intros []).
      f_equal. apply Hsame. intros x Hx. unfold dict_contains.
      destruct (String.eqb_spec k x) as [->|Hne].
      * exfalso. apply Hk. by apply list_elem_of_In.
      * by rewrite dict_get_set_ne.
    + rewrite filter_cons_True by (simpl; by rewrite E).
      rewrite <- app_assoc. simpl. do 2 f_equal. apply Hsame.
      intros x Hx. unfold dict_contains.
      destruct (String.eqb_spec k x) as [->|Hne].
      * exfalso. apply Hk. by apply list_elem_of_In.
      * by rewrite dict_get_set_ne.
Qed.

Lemma dict_update_fresh {V} (src : pydict V) :
  forall d : pydict V,
  wf_dict src ->
  (forall k, In k (dict_keys src) -> dict_get k d = None) ->
  dict_update d src = d ++ src.
Proof.
  unfold wf_dict.
  induction src as [|[k v] src IH]; intros d Hwf Hfresh.
  - by rewrite app_nil_r.
  - simpl in Hwf. apply NoDup_cons in Hwf as [Hk Hwf].
    rewrite dict_update_cons, dict_set_absent by (apply Hfresh; by left).
    rewrite IH; [by rewrite <- app_assoc | done |].
    intros x Hx. rewrite <- dict_set_absent by (apply Hfresh; by left).
    rewrite dict_get_set_ne; [apply Hfresh; by right|].
    intros ->. apply Hk. by apply list_elem_of_In.
Qed.

Lemma dict_contains_snoc_ne {V} (d : pydict V) (k x : string) (v : V) :
  k <> x -> dict_contains x (d ++ [(k, v)]) = dict_contains x d.
Proof.
  intros Hne. unfold dict_contains.
  induction d as [|[k0 v0] d IH]; simpl.
  - destruct (String.eqb_spec x k); [congruence | done].
  - by destruct (String.eqb x k0).
Qed.

(** ** model_properties *)

Section properties_facts.
Context `{Mp : Mapper}.

(** The two emptiness guards of [model_properties] change nothing. *)
Lemma model_properties_updates (self : ModelSerializer) :
  model_properties self =
  dict_update (dict_update [] (model_columns self)) (model_composites self).
Proof.
  unfold model_properties.
  destruct (model_columns self) as [|c cs]; destruct (model_composites self) as [|p ps]; done.
Qed.

Lemma model_properties_wf (self : ModelSerializer) : wf_dict (model_properties self).
Proof. rewrite model_properties_updates. apply wf_dict_update, wf_dict_update, wf_dict_nil. Qed.

End properties_facts.

(** ** The constructor, exactly *)

Section init_exact.
Context `{Mp : Mapper}.

Lemma declared_fields_wf (cls : SerializerClass) : wf_dict (_get_declared_fields cls).
Proof.
  unfold _get_declared_fields. destruct (cls_is_ModelSerializer cls); [apply wf_dict_nil|].
  generalize (@wf_dict_nil loc). generalize (@nil (string * loc)).
  induction (cls_dir cls) as [|[k a] xs IH]; intros acc Hacc; simpl; [done|].
  apply IH. destruct a; [by apply wf_dict_set | done].
Qed.

(** The loop of the constructor in closed form: it appends one entry per
    public name that is not yet a key, in order, each with a new default
    field of its own, and allocates one [Field()] per public name. *)
Lemma collect_properties_exact (names : list string) :
  forall (fields : pydict loc) (st : state),
  NoDup names ->
  exists added : pydict loc,
    let allocated :=
      length (filter (fun n => Is_true (negb (startswith_underscore n))) names) in
    for_fold collect_property names fields st =
      (Ok (fields ++ added),
       mkState _ (st_fields st ++ replicate allocated Field_new)
               (st_objs st) (st_warnings st)) /\
    dict_keys added =
      filter (fun n => Is_true (negb (startswith_underscore n) &&
                                negb (dict_contains n fields))) names /\
    Forall (fun l => length (st_fields st) <= l < length (st_fields st) + allocated)
           (map snd added) /\
    NoDup (map snd added).
Proof.
  induction names as [|n ns IH]; intros fields st Hnd; cbn [for_fold].
  - exists []. simpl. rewrite !app_nil_r. destruct st.
    split_and!; [done | done | constructor | apply NoDup_nil_2].
  - apply NoDup_cons in Hnd as [Hn Hnd].
    destruct (startswith_underscore n) eqn:Hpriv.
    + rewrite (bind_ok _ _ _ _ _ (collect_property_private _ _ _ Hpriv)).
      destruct (IH fields st Hnd) as (added & Hrun & Hkeys & Hge & Hdist).
      exists added. cbv zeta in *. rewrite Hrun.
      rewrite !filter_cons_False by (simpl; rewrite Hpriv; intros []).
      done.
    + rewrite (bind_ok _ _ _ _ _ (collect_property_public _ _ _ Hpriv)).
      set (l0 := length (st_fields st)).
      set (st1 := mkState _ (st_fields st ++ [Field_new]) (st_objs st) (st_warnings st)).
      destruct (IH (dict_setdefault n l0 fields) st1 Hnd)
        as (added & Hrun & Hkeys & Hge & Hdist).
      cbv zeta in *.
      rewrite Hrun. simpl st_fields. simpl st_objs. simpl st_warnings.
      rewrite (filter_cons_True _ n) by (simpl; by rewrite Hpriv).
      simpl length. rewrite <- app_assoc. simpl app.
      set (K := length (filter (fun n => Is_true (negb (startswith_underscore n))) ns)) in *.
      assert (Hge' : Forall (fun l => S l0 <= l < l0 + S K) (map snd added)).
      { eapply Forall_impl; [exact Hge|]. simpl. intros l Hl.
        rewrite length_app in Hl. simpl in Hl. subst l0. lia. }
      unfold dict_setdefault in *. destruct (dict_get n fields) as [l|] eqn:E.
      * exists added. split_and!; [done | | | done].
        -- rewrite Hkeys. rewrite filter_cons_False; [done|].
           simpl. unfold dict_contains. rewrite E, Hpriv. intros [].
        -- eapply Forall_impl; [exact Hge'|]. simpl. intros; lia.
      * exists ((n, l0) :: added). split_and!.
        -- by rewrite <- app_assoc.
        -- rewrite filter_cons_True
             by (simpl; unfold dict_contains; by rewrite E, Hpriv).
           simpl. f_equal. rewrite Hkeys. apply filter_ext_In.
           intros x Hx. rewrite dict_contains_snoc_ne; [done|].
           intros ->. apply Hn. by apply list_elem_of_In.
        -- simpl. constructor; [lia|].
           eapply Forall_impl; [exact Hge'|]. simpl. intros; lia.
        -- simpl. apply NoDup_cons. split; [|done].
           intros Hin. rewrite Forall_forall in Hge'. apply Hge' in Hin. lia.
Qed.

Lemma dict_get_app {V} (d1 d2 : pydict V) (k : string) :
  dict_get k (d1 ++ d2) =
  match dict_get k d1 with
  | Some v => Some v
  | None => dict_get k d2
  end.
Proof.
  induction d1 as [|[k0 v0] d1 IH]; simpl; [done|].
  by destruct (String.eqb k k0).
Qed.

Lemma NoDup_snd_In {V} (d : pydict V) (k1 k2 : string) (v : V) :
  NoDup (map snd d) -> In (k1, v) d -> In (k2, v) d -> k1 = k2.
Proof.
  induction d as [|[k0 v0] d IH]; simpl; [done|].
  intros [Hv Hnd]%NoDup_cons [H1|H1] [H2|H2].
  - congruence.
  - injection H1 as -> ->. exfalso. apply Hv. apply list_elem_of_In.
    apply (in_map snd) in H2. exact H2.
  - injection H2 as -> ->. exfalso. apply Hv. apply list_elem_of_In.
    apply (in_map snd) in H1. exact H1.
  - by apply IH.
Qed.

End init_exact.

(** ** Lazy assignment as a function of the field *)

Section assigned_facts.
Context `{Mp : Mapper} `{Pl : !Plugins}.

Lemma assign_default_eq (self : ModelSerializer) (l : loc) (name : string)
    (st : state) (f : Field) :
  st_fields st !! l = Some f ->
  _assign_default_field_serializer self l name st =
  (Ok tt, with_field l (lazily_assigned self name f) st).
Proof.
  intros Hf. unfold lazily_assigned.
  destruct (_serializer f) as [s|] eqn:Hs.
  - rewrite (assign_default_set self l name st f Hf) by (by rewrite Hs).
    by rewrite with_field_id.
  - destruct (dict_get name (model_properties self)) as [p|] eqn:Hp.
    + rewrite (assign_default_unset self l name st f p Hf Hs Hp).
      destruct (last_matching p); [done | by rewrite with_field_id].
    + rewrite (assign_default_unknown self l name st f Hf Hp). by rewrite with_field_id.
Qed.

Lemma lazily_assigned_twice (self : ModelSerializer) (name : string) (f : Field) :
  lazily_assigned self name (lazily_assigned self name f) = lazily_assigned self name f.
Proof.
  unfold lazily_assigned. destruct (_serializer f) as [s|] eqn:Hs; [by rewrite Hs|].
  destruct (dict_get name (model_properties self)) as [p|]; [|by rewrite Hs].
  destruct (last_matching p); [done | by rewrite Hs].
Qed.

Lemma lazily_assigned_extends (self : ModelSerializer) (name : string) (f : Field) :
  field_extends f (lazily_assigned self name f).
Proof.
  unfold lazily_assigned. destruct (_serializer f) as [s|] eqn:Hs; [by left|].
  destruct (dict_get name (model_properties self)) as [p|]; [|by left].
  destruct (last_matching p); [right; eauto | by left].
Qed.

Lemma with_field_lookup_ne (l l' : loc) (f : Field) (st : state) :
  l <> l' -> st_fields (with_field l f st) !! l' = st_fields st !! l'.
Proof. intros Hne. simpl. by apply list_lookup_insert_ne. Qed.

(** The value of one entry of [dump] and the state it leaves, as
    functions of the field. *)
Lemma dumped_value_eq (self : ModelSerializer) (model : loc) (attr : string)
    (l : loc) (f : Field) (st : state) :
  st_fields st !! l = Some f ->
  dumped_value self model attr l f st =
  if field_bool f then
    (Field_dump (lazily_assigned self attr f) (getattr_default st model attr),
     with_field l (lazily_assigned self attr f) st)
  else (Ok (getattr_default st model attr), st).
Proof.
  intros Hf. unfold dumped_value. rewrite bind_unfold. unfold getattr_m.
  destruct (field_bool f); [|done].
  rewrite (bind_ok _ _ _ _ _ (assign_default_eq self l attr st f Hf)).
  rewrite (bind_ok _ _ _ _ _ (get_field_ok _ _ _ (with_field_lookup _ _ _ _ Hf))).
  done.
Qed.

(** [dump_spec] touches the fields of its items only. *)
Lemma dump_spec_frame (self : ModelSerializer) (model : loc) (items : pydict loc) :
  forall (st st' : state) (r : res (pydict value)) (l : loc),
  dump_spec self model items st = (r, st') ->
  ~ In l (map snd items) ->
  st_fields st' !! l = st_fields st !! l.
Proof.
  induction items as [|[attr field] items IH]; intros st st' r l; cbn [dump_spec].
  - by intros [= _ <-].
  - simpl. intros Hrun Hl. rewrite bind_unfold in Hrun. unfold get_field in Hrun.
    destruct (st_fields st !! field) as [f|] eqn:Hf; [|by injection Hrun as _ <-].
    destruct (load_only f); [apply (IH _ _ _ _ Hrun); tauto|].
    rewrite bind_unfold, (dumped_value_eq self model attr field f st Hf) in Hrun.
    destruct (field_bool f).
    + destruct (Field_dump _ _) as [v|e]; [|by injection Hrun as _ <-; apply with_field_lookup_ne; tauto].
      rewrite bind_unfold in Hrun.
      destruct (dump_spec self model items _) as [[tl|e] st2] eqn:Hrest;
        injection Hrun as _ <-;
        (rewrite (IH _ _ _ l Hrest) by tauto; apply with_field_lookup_ne; tauto).
    + rewrite bind_unfold in Hrun.
      destruct (dump_spec self model items st) as [[tl|e] st2] eqn:Hrest;
        injection Hrun as _ <-; apply (IH _ _ _ l Hrest); tauto.
Qed.

(** Without shared field objects a second [dump_spec] from the state the
    first one left returns the same entries and changes nothing. *)
Lemma dump_spec_settled (self : ModelSerializer) (model : loc) (items : pydict loc) :
  forall (st st' : state) (entries : pydict value),
  NoDup (map snd items) ->
  dump_spec self model items st = (Ok entries, st') ->
  dump_spec self model items st' = (Ok entries, st').
Proof.
  induction items as [|[attr field] items IH]; intros st st' entries Hnd; cbn [dump_spec].
  - by intros [= <- <-].
  - simpl in Hnd. apply NoDup_cons in Hnd as [Hfield Hnd].
    rewrite list_elem_of_In in Hfield.
    intros Hrun. rewrite bind_unfold in Hrun. unfold get_field in Hrun.
    destruct (st_fields st !! field) as [f|] eqn:Hf; [|done].
    destruct (load_only f) eqn:Hlo.
    + rewrite (bind_ok _ _ _ _ _ (get_field_ok _ _ _
        (eq_trans (dump_spec_frame _ _ _ _ _ _ _ Hrun Hfield) Hf))), Hlo.
      by apply (IH st).
    + rewrite bind_unfold, (dumped_value_eq self model attr field f st Hf) in Hrun.
      destruct (field_bool f) eqn:Hb.
      * destruct (Field_dump _ _) as [v|e] eqn:Hv; [|done].
        rewrite bind_unfold in Hrun.
        destruct (dump_spec self model items _) as [[tl|e] st2] eqn:Hrest; [|done].
        injection Hrun as <- <-.
        pose proof (dump_spec_frame _ _ _ _ _ _ _ Hrest Hfield) as Hkeep.
        rewrite (with_field_lookup _ _ _ _ Hf) in Hkeep.
        destruct (dump_spec_keys _ _ _ _ _ _ Hrest) as [_ (_ & Hobjs & _)].
        rewrite (bind_ok _ _ _ _ _ (get_field_ok _ _ _ Hkeep)).
        destruct (field_extends_flags _ _ (lazily_assigned_extends self attr f))
          as (-> & _ & _ & _ & Hb').
        rewrite Hlo.
        rewrite (bind_ok _ _ st2 st2 v).
        -- by rewrite (bind_ok _ _ _ _ _ (IH _ _ _ Hnd Hrest)).
        -- rewrite (dumped_value_eq self model attr field _ st2 Hkeep), Hb', Hb.
           rewrite lazily_assigned_twice, with_field_id by done.
           unfold getattr_default in *. rewrite Hobjs. simpl. by rewrite Hv.
      * rewrite bind_unfold in Hrun.
        destruct (dump_spec self model items st) as [[tl|e] st2] eqn:Hrest; [|done].
        injection Hrun as <- <-.
        pose proof (dump_spec_frame _ _ _ _ _ _ _ Hrest Hfield) as Hkeep.
        rewrite Hf in Hkeep.
        destruct (dump_spec_keys _ _ _ _ _ _ Hrest) as [_ (_ & Hobjs & _)].
        rewrite (bind_ok _ _ _ _ _ (get_field_ok _ _ _ Hkeep)), Hlo.
        rewrite (bind_ok _ _ st2 st2 (getattr_default st model attr)).
        -- by rewrite (bind_ok _ _ _ _ _ (IH _ _ _ Hnd Hrest)).
        -- rewrite (dumped_value_eq self model attr field _ st2 Hkeep), Hb.
           unfold getattr_default. by rewrite Hobjs.
Qed.

End assigned_facts.

Lemma dump_eq_spec `{Mp : Mapper} `{Pl : !Plugins}
    (self : ModelSerializer) (model : loc) (st : state) :
  wf_dict (fields self) ->
  dump self model st = dump_spec self model (fields self) st.
Proof.
  intros Hwf. unfold dump. rewrite dump_loop_refines by done. rewrite bind_unfold.
  unfold fields. by destruct (dump_spec self model (_fields self) st) as [[?|?] ?].
Qed.

Lemma matching_serializers_cases `{Mp : Mapper} (p : ModelProperty) :
  matching_serializers p =
  (if is_datetime_column p then [DateTimeColumnSerializer] else []) ++
  (if is_date_column p then [DateColumnSerializer] else []) ++
  (if is_enum_column p then [EnumSerializer] else []).
Proof.
  unfold matching_serializers, EXTRA_SERIALIZERS.
  destruct (is_datetime_column p) eqn:H1, (is_date_column p) eqn:H2,
    (is_enum_column p) eqn:H3;
    repeat (first
      [ rewrite filter_cons_True by (simpl; rewrite ?H1, ?H2, ?H3; exact I)
      | rewrite filter_cons_False by (simpl; rewrite ?H1, ?H2, ?H3; intros []) ]);
    done.
Qed.

(** ** load: loops over skipped, unknown and plain keys *)

Section load_more.
Context `{Mp : Mapper} `{Pl : !Plugins} `{Sf : !SessionFields}.

Lemma known_items_cons_known (self : ModelSerializer) (k : string) (v : value)
    (items : pydict value) :
  is_Some (dict_get k (fields self)) ->
  known_items self ((k, v) :: items) = (k, v) :: known_items self items /\
  unknown_warnings self ((k, v) :: items) = unknown_warnings self items.
Proof.
  intros [field Hk]. unfold known_items, unknown_warnings.
  rewrite filter_cons_True by (simpl; unfold dict_contains; by rewrite Hk).
  rewrite filter_cons_False by (simpl; unfold dict_contains; rewrite Hk; intros []).
  done.
Qed.

Lemma known_items_cons_unknown (self : ModelSerializer) (k : string) (v : value)
    (items : pydict value) :
  dict_get k (fields self) = None ->
  known_items self ((k, v) :: items) = known_items self items /\
  unknown_warnings self ((k, v) :: items) =
    unknown_field_warning self k :: unknown_warnings self items.
Proof.
  intros Hk. unfold known_items, unknown_warnings.
  rewrite filter_cons_False by (simpl; unfold dict_contains; rewrite Hk; intros []).
  rewrite filter_cons_True by (simpl; unfold dict_contains; by rewrite Hk).
  done.
Qed.

Lemma dict_get_known_items (self : ModelSerializer) (k : string) (items : pydict value) :
  dict_get k (known_items self items) =
  if dict_contains k (fields self) then dict_get k items else None.
Proof.
  induction items as [|[k0 v0] items IH]; [by destruct (dict_contains _ _)|].
  destruct (dict_get k0 (fields self)) as [field|] eqn:Hk0.
  - destruct (known_items_cons_known self k0 v0 items) as [-> _]; [by eauto|].
    simpl. destruct (String.eqb_spec k k0) as [->|Hne]; [|done].
    unfold dict_contains. by rewrite Hk0.
  - destruct (known_items_cons_unknown self k0 v0 items Hk0) as [-> _].
    rewrite IH. simpl. destruct (String.eqb_spec k k0) as [->|Hne]; [|done].
    unfold dict_contains. by rewrite Hk0.
Qed.

Lemma known_items_wf (self : ModelSerializer) (items : pydict value) :
  wf_dict items -> wf_dict (known_items self items).
Proof.
  unfold wf_dict, known_items, dict_keys.
  induction items as [|[k v] items IH]; simpl; [done|].
  intros [Hk Hnd]%NoDup_cons.
  destruct (decide (Is_true (dict_contains k (fields self)))) as [Hin|Hin].
  - rewrite filter_cons_True by done. simpl. apply NoDup_cons. split; [|by apply IH].
    intros Hk'. apply Hk. apply list_elem_of_fmap in Hk' as ([k1 v1] & -> & Hk').
    apply list_elem_of_filter in Hk' as [_ Hk']. apply list_elem_of_fmap.
    by exists (k1, v1).
  - rewrite filter_cons_False by done. by apply IH.
Qed.

(** A loop whose known keys are all skipped: only the warnings grow. *)
Lemma load_loop_skipped (self : ModelSerializer) (m : loc) (em : option loc)
    (session : option Session) (items : pydict value) :
  forall st,
  (forall k v field, In (k, v) items -> dict_get k (fields self) = Some field ->
     exists f, st_fields st !! field = Some f /\
               (dump_only f = true \/ creation_only f && truthy st em = true)) ->
  for_each (load_item self m em session) items st =
  (Ok tt, mkState _ (st_fields st) (st_objs st)
            (st_warnings st ++ unknown_warnings self items)).
Proof.
  induction items as [|[k v] items IH]; intros st Hskip; cbn [for_each].
  - unfold unknown_warnings. simpl. rewrite app_nil_r. by destruct st.
  - destruct (dict_get k (fields self)) as [field|] eqn:Hk.
    + destruct (Hskip k v field (or_introl eq_refl) Hk) as (f & Hf & Hpol).
      destruct (known_items_cons_known self k v items) as [_ ->]; [by eauto|].
      assert (Hstep : load_item self m em session (k, v) st = (Ok tt, st)).
      { rewrite (load_item_known self m em session k v st field f Hk Hf).
        destruct (dump_only f); [done|]. by destruct Hpol as [?| ->]. }
      rewrite (bind_ok _ _ _ _ _ Hstep). apply IH.
      intros k' v' field' Hin. apply (Hskip k' v'). by right.
    + destruct (known_items_cons_unknown self k v items Hk) as [_ ->].
      rewrite (bind_ok _ _ _ _ _ (load_item_unknown self m em session k v st Hk)).
      rewrite IH.
      * simpl. by rewrite <- app_assoc.
      * intros k' v' field' Hin Hk'. apply (Hskip k' v' field' (or_intror Hin) Hk').
Qed.

(** A loop whose known keys all name plain fields: the known items are
    assigned in order, the unknown ones reported. *)
Lemma load_loop_plain_unknown (self : ModelSerializer) (m : loc) (em : option loc)
    (session : option Session) (items : pydict value) :
  forall (st : state) (o : Obj),
  (forall k v field, In (k, v) items -> dict_get k (fields self) = Some field ->
                     plain_field self st k field) ->
  st_objs st !! m = Some o ->
  for_each (load_item self m em session) items st =
  (Ok tt, mkState _ (st_fields st)
            (<[m := mkObj (dict_update (obj_attrs o) (known_items self items)) (obj_bool o)]>
               (st_objs st))
            (st_warnings st ++ unknown_warnings self items)).
Proof.
  induction items as [|[k v] items IH]; intros st o Hplain Ho; cbn [for_each].
  - unfold unknown_warnings, known_items, dict_update. simpl. rewrite app_nil_r.
    destruct o as [attrs b]. simpl. rewrite list_insert_id by done. by destruct st.
  - destruct (dict_get k (fields self)) as [field|] eqn:Hk.
    + pose proof (Hplain k v field (or_introl eq_refl) Hk) as Hpf.
      destruct (known_items_cons_known self k v items) as [-> ->]; [by eauto|].
      rewrite (bind_ok _ _ _ _ _ (load_item_plain self m em session k v st field o Hk Hpf Ho)).
      rewrite (IH _ (obj_setattr k v o)).
      * simpl. by rewrite list_insert_insert_eq.
      * intros k' v' field' Hin Hk'. apply (plain_field_same_fields self st); [done|].
        by apply (Hplain k' v' field' (or_intror Hin)).
      * simpl. apply list_lookup_insert_eq. by eapply lookup_lt_Some.
    + destruct (known_items_cons_unknown self k v items Hk) as [-> ->].
      rewrite (bind_ok _ _ _ _ _ (load_item_unknown self m em session k v st Hk)).
      rewrite (IH _ o).
      * simpl. by rewrite <- app_assoc.
      * intros k' v' field' Hin Hk'. apply (plain_field_same_fields self st); [done|].
        by apply (Hplain k' v' field' (or_intror Hin)).
      * done.
Qed.

End load_more.

Lemma getattr_after_update `{Mp : Mapper} (self : ModelSerializer)
    (st_f : list Field) (objs : list Obj) (ws : list string)
    (m : loc) (o : Obj) (items : pydict value) (name : string) :
  objs !! m = Some o ->
  wf_dict items ->
  getattr_default
    (mkState _ st_f
       (<[m := mkObj (dict_update (obj_attrs o) (known_items self items)) (obj_bool o)]> objs)
       ws) m name =
  match dict_get name items with
  | Some v => if dict_contains name (fields self) then v
              else default VNone (dict_get name (obj_attrs o))
  | None => default VNone (dict_get name (obj_attrs o))
  end.
Proof.
  intros Ho Hwf. unfold getattr_default. simpl.
  rewrite list_lookup_insert_eq by (by eapply lookup_lt_Some). simpl.
  rewrite dict_get_update by (by apply known_items_wf).
  rewrite dict_get_known_items.
  destruct (dict_contains name (fields self)); by destruct (dict_get name items).
Qed.

(** ** The constructor in closed form, and load's frame *)

Section compose_facts.
Context `{Mp : Mapper} `{Pl : !Plugins} `{Sf : !SessionFields}.

Lemma init_closed_form (cls : SerializerClass) (mc : ModelClass) (st : state) :
  exists added : pydict loc,
    let self := mkModelSerializer _ mc (_get_declared_fields cls ++ added) cls in
    let allocated := length (public_names (dict_keys (model_properties self))) in
    __init__ cls mc st =
      (Ok self, mkState _ (st_fields st ++ replicate allocated Field_new)
                        (st_objs st) (st_warnings st)) /\
    dict_keys added =
      filter (fun n => Is_true (negb (startswith_underscore n) &&
                                negb (dict_contains n (_get_declared_fields cls))))
             (dict_keys (model_properties self)) /\
    Forall (fun l => length (st_fields st) <= l < length (st_fields st) + allocated)
           (map snd added) /\
    NoDup (map snd added).
Proof.
  unfold __init__.
  set (self0 := mkModelSerializer _ mc (_get_declared_fields cls) cls).
  destruct (collect_properties_exact (dict_keys (model_properties self0)) (_fields self0) st
              (model_properties_wf self0)) as (added & Hrun & Hkeys & Hrange & Hdist).
  cbv zeta in *. exists added. rewrite (bind_ok _ _ _ _ _ Hrun). done.
Qed.

(** Whatever [load] returns, what it leaves behind is within the frame of
    its loop, for the model it worked on. *)
Lemma load_frame_paths (self : ModelSerializer) (serialized : pydict value)
    (em : option loc) (session : option Session) (st st' : state) (r : res loc) :
  truthy st em = true \/ cls_create_model (serializer_cls self) = None ->
  load self serialized em session st = (r, st') ->
  exists (m : loc) (st1 : state),
    load_frame m (writes_attr self st1 serialized) st1 st' /\
    st_fields st1 = st_fields st /\ st_warnings st1 = st_warnings st /\
    ((truthy st em = true /\ em = Some m /\ st1 = st) \/
     (truthy st em = false /\ m = length (st_objs st) /\
      exists o, st_objs st1 = st_objs st ++ [o])).
Proof.
  intros Hpath Hrun. destruct (truthy st em) eqn:Ht.
  - destruct em as [existing|]; [|done].
    rewrite (load_update_path self serialized existing session st Ht) in Hrun.
    pose proof (load_loop_frame self existing (Some existing) session serialized st) as Hfr.
    exists existing, st.
    destruct (for_each _ serialized st) as [[[]|e] st2]; injection Hrun as _ <-;
      (split_and!; [exact Hfr | done | done | by left]).
  - destruct Hpath as [|Hdefault]; [done|].
    rewrite (load_creation_path self serialized em session st Ht) in Hrun.
    rewrite (create_model_default self serialized st Hdefault) in Hrun.
    set (st1 := mkState _ _ _ _) in Hrun.
    pose proof (load_loop_frame self (length (st_objs st)) em session serialized st1) as Hfr.
    exists (length (st_objs st)), st1.
    destruct (for_each _ serialized st1) as [[[]|e] st2]; injection Hrun as _ <-;
      (split_and!; [exact Hfr | done | done | right; by eauto]).
Qed.

End compose_facts.

(** ** Round trip through serializers *)

Section roundtrip_facts.
Context `{Mp : Mapper} `{Pl : !Plugins} `{Sf : !SessionFields}.

Lemma open_field_extends (f f' : Field) :
  field_extends f f' -> open_field f -> open_field f'.
Proof.
  intros Hff (H1 & H2 & H3 & H4 & H5).
  destruct (field_extends_flags _ _ Hff) as (E1 & E2 & E3 & E4 & E5).
  unfold open_field. by rewrite E1, E2, E3, E4, E5.
Qed.

(** What a successful [dump_spec] over open, unshared fields returns and
    leaves: each entry is the field's dump of the attribute, by the field as
    lazy assignment left it, and that field is the one in the final state. *)
Lemma dump_spec_open (self : ModelSerializer) (model : loc) (items : pydict loc) :
  forall (st st1 : state) (serial : pydict value),
  NoDup (map snd items) ->
  (forall k l, In (k, l) items -> exists f, st_fields st !! l = Some f /\ open_field f) ->
  dump_spec self model items st = (Ok serial, st1) ->
  dict_keys serial = dict_keys items /\
  st_objs st1 = st_objs st /\
  (forall k v, In (k, v) serial ->
     exists l f,
       In (k, l) items /\ st_fields st !! l = Some f /\
       st_fields st1 !! l = Some (lazily_assigned self k f) /\
       Field_dump (lazily_assigned self k f) (getattr_default st model k) = Ok v).
Proof.
  induction items as [|[attr field] items IH]; intros st st1 serial Hnd Hopen;
    cbn [dump_spec].
  - intros [= <- <-]. split_and!; [done | done | by intros ? ? []].
  - simpl in Hnd. apply NoDup_cons in Hnd as [Hfield Hnd].
    rewrite list_elem_of_In in Hfield.
    destruct (Hopen attr field (or_introl eq_refl)) as (f & Hf & Hlo & _ & _ & _ & Hb).
    rewrite (bind_ok _ _ _ _ _ (get_field_ok _ _ _ Hf)), Hlo.
    rewrite bind_unfold, (dumped_value_eq self model attr field f st Hf), Hb.
    destruct (Field_dump _ _) as [v|e] eqn:Hv; [|done].
    rewrite bind_unfold.
    set (st2 := with_field field (lazily_assigned self attr f) st).
    destruct (dump_spec self model items st2) as [[tl|e] st3] eqn:Hrest; [|done].
    intros [= <- <-].
    assert (Hother : forall k l, In (k, l) items -> st_fields st2 !! l = st_fields st !! l).
    { intros k l Hin. apply with_field_lookup_ne. intros ->. apply Hfield.
      apply (in_map snd) in Hin. exact Hin. }
    destruct (IH st2 st3 tl Hnd) as (Hkeys & Hobjs & Hentries); [|done|].
    { intros k l Hin. rewrite (Hother k l Hin). apply (Hopen k l). by right. }
    split_and!.
    + simpl. by rewrite Hkeys.
    + by rewrite Hobjs.
    + intros k v0 [Heq|Hin].
      * injection Heq as <- <-. exists field, f. split_and!; [by left | done | | done].
        rewrite (dump_spec_frame self model items st2 st3 _ field Hrest Hfield).
        by apply (with_field_lookup field f).
      * destruct (Hentries k v0 Hin) as (l & f0 & Hil & Hf0 & Hf1 & Hd).
        exists l, f0. rewrite (Hother k l Hil) in Hf0.
        split_and!; [by right | done | done |].
        rewrite <- Hd. unfold getattr_default. done.
Qed.

(** The loop of [load] over entries whose fields are settled and open:
    each key is assigned the value its field's [load] returns. *)
Lemma load_loop_settled (self : ModelSerializer) (m : loc) (session : option Session)
    (raw : string -> value) (items : pydict value) :
  forall (st : state) (o : Obj),
  (forall k v, In (k, v) items ->
     exists l g,
       dict_get k (fields self) = Some l /\ st_fields st !! l = Some g /\
       lazily_assigned self k g = g /\ open_field g /\
       Field_load g v = Ok (raw k)) ->
  st_objs st !! m = Some o ->
  for_each (load_item self m None session) items st =
  (Ok tt, mkState _ (st_fields st)
            (<[m := mkObj (dict_update (obj_attrs o)
                             (map (fun item : string * value => (item.1, raw item.1)) items))
                          (obj_bool o)]> (st_objs st))
            (st_warnings st)).
Proof.
  induction items as [|[k v] items IH]; intros st o Hitems Ho; cbn [for_each].
  - unfold dict_update. simpl. destruct o as [attrs b]. simpl.
    rewrite list_insert_id by done. by destruct st.
  - destruct (Hitems k v (or_introl eq_refl))
      as (l & g & Hk & Hg & Hsettled & (_ & Hdo & Hco & Hsb & _) & Hload).
    assert (Hstep : load_item self m None session (k, v) st =
      (Ok tt, mkState _ (st_fields st) (<[m := obj_setattr k (raw k) o]> (st_objs st))
                      (st_warnings st))).
    { rewrite (load_item_known self m None session k v st l g Hk Hg), Hdo, Hco. simpl.
      unfold apply_item.
      rewrite (bind_ok _ _ _ _ _ (assign_default_eq self l k st g Hg)).
      rewrite Hsettled, with_field_id by done.
      rewrite (bind_ok _ _ _ _ _ (get_field_ok _ _ _ Hg)).
      rewrite bind_unfold. unfold lift_res, deserialized_value. rewrite Hsb, Hload.
      by apply setattr_ok. }
    rewrite (bind_ok _ _ _ _ _ Hstep).
    rewrite (IH _ (obj_setattr k (raw k) o)).
    + simpl. by rewrite list_insert_insert_eq.
    + intros k' v' Hin. apply (Hitems k' v'). by right.
    + simpl. apply list_lookup_insert_eq. by eapply lookup_lt_Some.
Qed.

End roundtrip_facts.

(** ** The session argument *)

Section session_facts.
Context `{Mp : Mapper} `{Pl : !Plugins} `{Sf : !SessionFields}.

Lemma load_item_session_irrelevant (self : ModelSerializer) (m : loc) (em : option loc)
    (s s' : option Session) (item : string * value) (st : state) :
  no_session_fields st ->
  load_item self m em s item st = load_item self m em s' item st.
Proof.
  intros Hns. destruct item as [k v].
  destruct (dict_get k (fields self)) as [field|] eqn:Hk.
  - destruct (st_fields st !! field) as [f|] eqn:Hf.
    + rewrite !(load_item_known self m em _ k v st field f Hk Hf).
      destruct (dump_only f); [done|].
      destruct (creation_only f && truthy st em); [done|].
      unfold apply_item.
      rewrite !(bind_ok _ _ _ _ _ (assign_default_eq self field k st f Hf)).
      rewrite !(bind_ok _ _ _ _ _ (get_field_ok _ _ _ (with_field_lookup field f _ st Hf))).
      unfold deserialized_value.
      destruct (field_extends_flags _ _ (lazily_assigned_extends self k f))
        as (_ & _ & _ & -> & _).
      by rewrite (Hns field f Hf).
    + by rewrite !(load_item_invalid self m em _ k v st field Hk Hf).
  - by rewrite !load_item_unknown.
Qed.

Lemma no_session_fields_frame (m : loc) (W : string -> Prop) (st st' : state) :
  load_frame m W st st' -> no_session_fields st -> no_session_fields st'.
Proof.
  intros (Hf & _) Hns l f' Hl.
  destruct (fields_extend_lookup_r _ _ _ _ Hf Hl) as (f & Hl0 & Hff).
  destruct (field_extends_flags _ _ Hff) as (_ & _ & _ & -> & _). by eapply Hns.
Qed.

Lemma load_loop_session_irrelevant (self : ModelSerializer) (m : loc) (em : option loc)
    (s s' : option Session) (items : pydict value) :
  forall st,
  no_session_fields st ->
  for_each (load_item self m em s) items st = for_each (load_item self m em s') items st.
Proof.
  induction items as [|[k v] items IH]; intros st Hns; cbn [for_each]; [done|].
  rewrite !bind_unfold. rewrite <- (load_item_session_irrelevant self m em s s') by done.
  pose proof (load_item_frame self m em s k v st) as Hfr.
  destruct (load_item self m em s (k, v) st) as [[[]|e] st1]; [|done].
  apply IH. by eapply no_session_fields_frame.
Qed.

End session_facts.

(** * The claims *)

Section claims.
Context `{Mp : Mapper} `{Pl : !Plugins} `{Sf : !SessionFields}.

(** C1 (as amended).  When the field's serializer is unset and the property
    name resolves to a model property [p], the pairs are checked in the order
    datetime-column, date-column, enum-column, every matching pair assigns
    its serializer, and so the field ends up with the serializer type of the
    LAST pair whose predicate holds of [p], constructed with [p]; no other
    object changes, and when no predicate matches the state is untouched and
    the serializer stays unset. *)
Theorem assign_default_attaches_last_match
    (self : ModelSerializer) (field : loc) (property_name : string)
    (st : state) (f : Field) (p : ModelProperty) :
  st_fields st !! field = Some f ->
  _serializer f = None ->
  dict_get property_name (model_properties self) = Some p ->
  map fst EXTRA_SERIALIZERS =
    [DateTimeColumnSerializer; DateColumnSerializer; EnumSerializer] /\
  _assign_default_field_serializer self field property_name st =
    (Ok tt,
     match last_matching p with
     | Some c => with_field field (set_serializer f (mkSerializer _ c (Some p))) st
     | None => st
     end) /\
  serializer_at (_assign_default_field_serializer self field property_name st).2 field =
    (fun c => mkSerializer _ c (Some p)) <$> last_matching p.
Proof.
  intros Hf Hs Hp. split; [done|].
  rewrite (assign_default_unset _ _ _ _ _ _ Hf Hs Hp). split; [done|].
  unfold serializer_at. simpl. destruct (last_matching p) as [c|]; simpl.
  - rewrite list_lookup_insert_eq by (by eapply lookup_lt_Some). done.
  - by rewrite Hf.
Qed.

(** C9.  Once the field's serializer is set, a call of
    [_assign_default_field_serializer] on it, under any property name,
    returns without changing anything, and so does every sequence of
    subsequent calls. *)
Theorem assign_default_idempotent
    (self : ModelSerializer) (field : loc) (st : state) (f : Field) :
  st_fields st !! field = Some f ->
  is_Some (_serializer f) ->
  (forall property_name,
     _assign_default_field_serializer self field property_name st = (Ok tt, st)) /\
  (forall property_names,
     for_each (_assign_default_field_serializer self field) property_names st = (Ok tt, st)).
Proof.
  intros Hf Hs.
  assert (Hone : forall name,
    _assign_default_field_serializer self field name st = (Ok tt, st))
    by (intros name; by eapply assign_default_set).
  split; [done|].
  induction property_names as [|name names IH]; simpl; [done|].
  by rewrite (bind_ok _ _ _ _ _ (Hone name)).
Qed.

(** C2.  The constructor never raises, and in the serializer it returns
    every name of the combined column and composite map that does not start
    with an underscore is a key of the fields collection; a [Field] declared
    as a class attribute of the subclass stays under its name, the very same
    object with its contents untouched; every other entry is a new default
    [Field].  ([dir] lists each name once.) *)
Theorem init_fields_invariant
    (cls : SerializerClass) (model_class : ModelClass) (st : state) :
  NoDup (map fst (cls_dir cls)) ->
  exists (self : ModelSerializer) (st' : state),
    __init__ cls model_class st = (Ok self, st') /\
    _mapper_class self = model_class /\
    (forall name,
       In name (dict_keys (mapper_c model_class)) \/
       In name (dict_keys (mapper_composites model_class)) ->
       startswith_underscore name = false ->
       is_Some (dict_get name (fields self))) /\
    (forall name l,
       cls_is_ModelSerializer cls = false ->
       In (name, AttrField l) (cls_dir cls) ->
       dict_get name (fields self) = Some l /\
       forall f, st_fields st !! l = Some f -> st_fields st' !! l = Some f) /\
    (forall name l,
       dict_get name (fields self) = Some l ->
       dict_get name (_get_declared_fields cls) = Some l \/
       (length (st_fields st) <= l /\ st_fields st' !! l = Some Field_new)).
Proof.
  intros Hdir. unfold __init__.
  set (self0 := mkModelSerializer _ model_class (_get_declared_fields cls) cls).
  destruct (collect_properties (dict_keys (model_properties self0)) (_fields self0) st)
    as (fields' & extra & Hrun & _ & Hkeep & Hall & Horigin).
  eexists _, _. rewrite (bind_ok _ _ _ _ _ Hrun). split; [reflexivity|].
  simpl. split_and!; [done | | |].
  - intros name Hin Hpub. apply Hall; [|done].
    apply model_properties_keys. exact Hin.
  - intros name l Hsub Hin. split.
    + apply Hkeep. subst self0. simpl. rewrite declared_fields_fold by done.
      by apply declare_attr_field.
    + intros f Hf. by apply lookup_app_l_Some.
  - intros name l Hl. by apply Horigin.
Qed.

(** C7 (as amended).  [dump] returns what [dump_spec] describes: one entry
    per field of the fields collection whose [load_only] flag is false and
    none for the others, in the collection's order.  The value of an entry
    is the attribute read with [None] as default, converted by the [dump] of
    the field as lazy assignment leaves it when the field object is truthy,
    and the raw attribute when the field object is falsy.  A call only
    attaches serializers: models and warnings stay as they are.  It returns
    a dict whenever the references are valid and no serializer raises. *)
Theorem dump_one_entry_per_field
    (self : ModelSerializer) (model : loc) (st : state) :
  wf_dict (fields self) ->
  dump self model st = dump_spec self model (fields self) st /\
  (forall serial st',
     dump self model st = (Ok serial, st') ->
     dict_keys serial =
       dict_keys (filter (fun item => Is_true (dumps_field st item)) (fields self)) /\
     state_extends st st') /\
  (fields_valid self st -> dumps_never_raise ->
   exists serial st', dump self model st = (Ok serial, st')) /\
  (forall attr field f st0,
     st_fields st0 !! field = Some f ->
     dumped_value self model attr field f st0 =
     if field_bool f then
       let st1 := (_assign_default_field_serializer self field attr st0).2 in
       (match st_fields st1 !! field with
        | Some f' => Field_dump f' (getattr_default st0 model attr)
        | None => Raise InvalidReference
        end, st1)
     else (Ok (getattr_default st0 model attr), st0)).
Proof.
  intros Hwf.
  assert (Hspec : dump self model st = dump_spec self model (fields self) st).
  { unfold dump. rewrite dump_loop_refines by done. rewrite bind_unfold.
    unfold fields. by destruct (dump_spec self model (_fields self) st) as [[?|?] ?]. }
  split_and!; [done | | |].
  - intros serial st' Hrun. rewrite Hspec in Hrun. by apply dump_spec_keys in Hrun.
  - intros Hv Hnr. rewrite Hspec. apply dump_spec_ok; [|done].
    intros attr field Hin. apply (Hv attr). by apply dict_get_In_wf.
  - intros attr field f st0 Hf. unfold dumped_value. rewrite bind_unfold. unfold getattr_m.
    destruct (field_bool f); [|done]. rewrite bind_unfold.
    destruct (assign_default_ok self field attr st0 f Hf) as [st1 Hrun].
    rewrite Hrun, bind_unfold. simpl. unfold get_field, lift_res.
    by destruct (st_fields st1 !! field).
Qed.

(** The access policy of one iteration of [load]'s loop, for a key that
    names a known field: a dump-only field is always skipped; a creation-only
    field is skipped when the [existing_model] argument is truthy at that
    moment and applied when it is falsy, in particular when none was
    supplied; every other field is applied.  Applying means: the value is
    deserialized by the field as lazy assignment leaves it and, unless that
    raises, assigned to the model attribute of the key's name. *)
Theorem load_item_policy
    (self : ModelSerializer) (model : loc) (existing : option loc)
    (session : option Session) (key : string) (v : value) (st : state)
    (field : loc) (f : Field) :
  dict_get key (fields self) = Some field ->
  st_fields st !! field = Some f ->
  (dump_only f = true ->
     load_item self model existing session (key, v) st = (Ok tt, st)) /\
  (dump_only f = false -> creation_only f = true ->
     (truthy st existing = true ->
        load_item self model existing session (key, v) st = (Ok tt, st)) /\
     (truthy st existing = false ->
        load_item self model existing session (key, v) st =
        apply_item self model session key v field st) /\
     (existing = None ->
        load_item self model existing session (key, v) st =
        apply_item self model session key v field st)) /\
  (dump_only f = false -> creation_only f = false ->
     load_item self model existing session (key, v) st =
     apply_item self model session key v field st) /\
  (forall o, st_objs st !! model = Some o ->
     exists st1 f',
       _assign_default_field_serializer self field key st = (Ok tt, st1) /\
       st_fields st1 !! field = Some f' /\
       match deserialized_value f' v session with
       | Ok d =>
           exists st', apply_item self model session key v field st = (Ok tt, st') /\
                       getattr_default st' model key = d
       | Raise e => apply_item self model session key v field st = (Raise e, st1)
       end).
Proof.
  intros Hk Hf. pose proof (load_item_known self model existing session key v st field f Hk Hf)
    as Hstep.
  split_and!.
  - intros Hdo. by rewrite Hstep, Hdo.
  - intros Hdo Hco. rewrite Hstep, Hdo, Hco. simpl. split_and!.
    + by intros ->.
    + by intros ->.
    + by intros ->.
  - intros Hdo Hco. by rewrite Hstep, Hdo, Hco.
  - intros o Ho.
    destruct (apply_item_eq self model session key v field f st Hf)
      as (st1 & f' & Hrun & (_ & Hobjs & _) & Hf' & _ & Happ).
    exists st1, f'. split_and!; [done | done |].
    rewrite Happ. destruct (deserialized_value f' v session) as [d|e]; [|done].
    rewrite (setattr_ok model key d st1 o) by (by rewrite Hobjs).
    eexists. split; [done|]. unfold getattr_default. simpl.
    rewrite list_lookup_insert_eq by (rewrite Hobjs; by eapply lookup_lt_Some).
    simpl. by rewrite dict_get_set_eq.
Qed.


(** C6.  On the creation path a [_create_model] that returns [None] makes
    [load] raise the assertion error right there: the state is the one the
    hook left, no key is processed and no model is returned.  Unless a
    subclass overrides it, [_create_model] returns a new instance built by
    the model class's constructor, whatever the serialized payload is. *)
Theorem load_asserts_created_model
    (self : ModelSerializer) (serialized : pydict value) (existing : option loc)
    (session : option Session) (st : state) :
  (forall st1,
     truthy st existing = false ->
     _create_model self serialized st = (Ok None, st1) ->
     load self serialized existing session st =
     (Raise (AssertionError "ModelSerializer._create_model cannot return None"), st1)) /\
  (cls_create_model (serializer_cls self) = None ->
     forall payload,
       _create_model self payload st =
       (Ok (Some (length (st_objs st))),
        mkState _ (st_fields st) (st_objs st ++ [cls_new (model_class self)])
                (st_warnings st))).
Proof.
  split.
  - intros st1 Ht Hhook. by rewrite (load_creation_path self serialized existing session st Ht), Hhook.
  - intros Hdefault payload. by apply create_model_default.
Qed.


(** C8.  When every field of the collection is a plain pass-through field
    ([plain_fields]) and [_create_model] is not overridden, [dump] returns a
    dict and leaves the state alone, [load] of that dict without an existing
    model returns a new instance, and for every field name the attribute of
    the new instance equals the attribute of the original model (a missing
    attribute reads as [None]). *)
Theorem load_dump_roundtrip
    (self : ModelSerializer) (model : loc) (session : option Session) (st : state) :
  wf_dict (fields self) ->
  plain_fields self st ->
  cls_create_model (serializer_cls self) = None ->
  exists serial model' st',
    dump self model st = (Ok serial, st) /\
    load self serial None session st = (Ok model', st') /\
    model' = length (st_objs st) /\
    forall name, In name (dict_keys (fields self)) ->
                 getattr_default st' model' name = getattr_default st model name.
Proof.
  intros Hwf Hplain Hdefault.
  set (serial := map (fun item : string * loc => (item.1, getattr_default st model item.1))
                     (fields self)).
  assert (Hkeys : dict_keys serial = dict_keys (fields self)).
  { unfold serial, dict_keys. rewrite map_map. done. }
  assert (Hdump : dump self model st = (Ok serial, st)).
  { unfold dump. rewrite dump_loop_refines by done. rewrite bind_unfold.
    unfold fields in *. by rewrite (dump_spec_plain self model st (_fields self) Hplain). }
  set (m := length (st_objs st)).
  set (st1 := mkState _ (st_fields st) (st_objs st ++ [cls_new (model_class self)])
                      (st_warnings st)).
  assert (Hm : st_objs st1 !! m = Some (cls_new (model_class self))).
  { subst st1 m. simpl. rewrite lookup_app_r by done. by rewrite Nat.sub_diag. }
  assert (Hloop := load_loop_plain self m None session serial st1 _
    (fun k v (Hin : In (k, v) serial) =>
       ltac:(
         assert (Hk : In k (dict_keys (fields self)))
           by (rewrite <- Hkeys; apply (in_map fst) in Hin; exact Hin);
         apply dict_get_is_Some_keys in Hk; destruct Hk as [field Hfield];
         exists field; split; [exact Hfield|];
         apply (plain_field_same_fields self st); [reflexivity|];
         apply Hplain; by apply dict_get_Some_In)) Hm).
  eexists serial, m, _. split; [exact Hdump|]. split; [|split; [reflexivity|]].
  - rewrite (load_creation_path self serial None session st eq_refl).
    rewrite (create_model_default self serial st Hdefault). fold m st1.
    rewrite Hloop. reflexivity.
  - intros name Hname. unfold getattr_default at 1. simpl.
    rewrite list_lookup_insert_eq by (by eapply lookup_lt_Some). simpl.
    rewrite (dict_get_update_In serial _ name (getattr_default st model name)); [done | |].
    + unfold wf_dict. by rewrite Hkeys.
    + apply in_map_iff in Hname as [[n field] [<- Hin]].
      unfold serial. apply in_map_iff. by exists (n, field).
Qed.

End claims.

(** ** Concrete runs *)

Lemma assign_default_attaches_last_match_witness :
  serializer_at
    (_assign_default_field_serializer event_serializer 1 "stamp" event_state).2 1 =
  Some (mkSerializer demo_mapper DateColumnSerializer (Some stamp_property)).
Proof.
  pose proof (assign_default_attaches_last_match (Mp := demo_mapper)
                event_serializer 1 "stamp" event_state Field_new stamp_property
                eq_refl eq_refl eq_refl) as (_ & _ & H).
  exact H.
Defined.

(** C1 as stated fails: the column passes the datetime and the date check,
    the first match is the datetime serializer, and the field ends up with
    the date serializer. *)
Lemma attaches_first_match_counterexample :
  ~ attaches_first_match event_serializer 1 "stamp" event_state.
Proof.
  intros H. specialize (H Field_new stamp_property eq_refl eq_refl eq_refl).
  vm_compute in H. discriminate H.
Qed.

Lemma assign_default_idempotent_witness :
  _assign_default_field_serializer event_serializer 1 "stamp" declared_state =
  (Ok tt, declared_state).
Proof.
  refine (proj1 (assign_default_idempotent (Mp := demo_mapper)
                   event_serializer 1 declared_state
                   (set_serializer Field_new iso_serializer) eq_refl _) "stamp").
  simpl. eauto.
Defined.

Lemma init_fields_invariant_witness :
  exists self st',
    __init__ UserSerializerCls User user_state0 = (Ok self, st') /\
    dict_get "id" (fields self) = Some 0 /\
    st_fields st' !! 0 = Some dump_only_field /\
    is_Some (dict_get "created_at" (fields self)).
Proof.
  destruct (init_fields_invariant (Mp := demo_mapper) UserSerializerCls User user_state0)
    as (self & st' & Hrun & _ & Hall & Hdecl & _).
  - apply (bool_decide_unpack _). vm_compute. exact I.
  - exists self, st'. split; [exact Hrun|].
    destruct (Hdecl "id" 0 eq_refl) as [Hid Hkeep]; [simpl; tauto|].
    split; [exact Hid|]. split; [by apply Hkeep|].
    apply Hall; [simpl; tauto | reflexivity].
Defined.

Lemma dump_one_entry_per_field_witness :
  (dump (Pl := demo_plugins) user_serializer 0 user_state).1 =
  Ok [("id", VInt 1); ("name", VStr "Ann"); ("created_at", VInt 1700)].
Proof.
  destruct (dump_one_entry_per_field (Pl := demo_plugins) user_serializer 0 user_state)
    as (Hspec & _ & _ & _).
  - apply (bool_decide_unpack _). vm_compute. exact I.
  - rewrite Hspec. reflexivity.
Defined.

(** C7 as stated fails: the field object under [created_at] is falsy and
    has a datetime serializer; [dump] stores the raw clock value, which is
    not what the field's [dump] makes of it. *)
Lemma dump_converts_every_value_counterexample :
  ~ dump_converts_every_value (Pl := demo_plugins) falsy_serializer 0 falsy_state.
Proof.
  intros H.
  specialize (H [("created_at", VDateTime 1700)] falsy_state "created_at" 0 falsy_field
                (VDateTime 1700) eq_refl eq_refl eq_refl eq_refl eq_refl).
  vm_compute in H. discriminate H.
Qed.

(** C3: the code at two failing inputs.  In both an existing model is
    supplied and [token] is a creation-only field, yet its key is applied.
    First, the supplied basket has no owner and is falsy: [load] takes the
    creation path and assigns [token] to the basket it creates.  Second, the
    supplied basket is truthy when [load] is entered and is updated; the key
    [owner] clears the owner, the basket turns falsy, and the test on the
    next key no longer skips it: [load] returns the supplied basket with its
    creation-only attribute overwritten. *)
Theorem load_supplied_model_applies_creation_only :
  (exists field f,
     dict_get "token" (fields basket_serializer) = Some field /\
     st_fields basket_state !! field = Some f /\
     st_fields owned_basket_state !! field = Some f /\
     dump_only f = false /\ creation_only f = true) /\
  (st_objs basket_state !! 0 = Some empty_basket /\
   load (Pl := demo_plugins) (Sf := demo_session_fields)
        basket_serializer [("token", VStr "t1")] (Some 0) None basket_state =
   (Ok 1,
    mkState demo_mapper [Field_new; creation_only_field]
            [empty_basket; mkObj [("token", VStr "t1")] has_owner] [])) /\
  (st_objs owned_basket_state !! 0 = Some owned_basket /\
   truthy owned_basket_state (Some 0) = true /\
   load (Pl := demo_plugins) (Sf := demo_session_fields)
        basket_serializer [("owner", VStr ""); ("token", VStr "t1")]
        (Some 0) None owned_basket_state =
   (Ok 0,
    mkState demo_mapper [Field_new; creation_only_field]
            [mkObj [("owner", VStr ""); ("token", VStr "t1")] has_owner] [])).
Proof.
  split; [exists 1, creation_only_field; by repeat split|].
  split; repeat split; reflexivity.
Qed.

(** C4: the code at a failing input.  The stored basket has no owner and
    is falsy; given as [existing_model] it is neither updated nor returned:
    [load] builds a second basket, assigns the key to it and returns it. *)
Theorem load_falsy_existing_returns_new_instance :
  st_objs basket_state !! 0 = Some empty_basket /\
  load (Pl := demo_plugins) (Sf := demo_session_fields)
       basket_serializer [("owner", VStr "Bob")] (Some 0) None basket_state =
  (Ok 1,
   mkState demo_mapper [Field_new; creation_only_field]
           [empty_basket; mkObj [("owner", VStr "Bob")] has_owner] []).
Proof. split; reflexivity. Qed.


Lemma load_asserts_created_model_witness :
  load (Pl := demo_plugins) (Sf := demo_session_fields)
       broken_serializer [("name", VStr "Bob")] None None user_state =
  (Raise (AssertionError "ModelSerializer._create_model cannot return None"), user_state).
Proof.
  exact (proj1 (load_asserts_created_model (Pl := demo_plugins) (Sf := demo_session_fields)
                  broken_serializer [("name", VStr "Bob")] None None user_state)
               user_state eq_refl eq_refl).
Defined.


Lemma load_dump_roundtrip_witness :
  exists serial model' st',
    dump (Pl := demo_plugins) note_serializer 0 note_state = (Ok serial, note_state) /\
    load (Pl := demo_plugins) (Sf := demo_session_fields)
         note_serializer serial None None note_state = (Ok model', st') /\
    getattr_default st' model' "title" = VStr "Minutes" /\
    getattr_default st' model' "pages" = VInt 3.
Proof.
  destruct (load_dump_roundtrip (Pl := demo_plugins) (Sf := demo_session_fields)
              note_serializer 0 None note_state)
    as (serial & model' & st' & Hdump & Hload & _ & Hattrs).
  - apply (bool_decide_unpack _). vm_compute. exact I.
  - intros name field Hin. simpl in Hin.
    destruct Hin as [Heq|[Heq|[]]]; injection Heq as <- <-;
      (exists Field_new; repeat (split; [reflexivity|]);
       intros p Hp; vm_compute in Hp; injection Hp as <-; by vm_compute).
  - reflexivity.
  - exists serial, model', st'. split; [exact Hdump|]. split; [exact Hload|].
    split; [apply (Hattrs "title") | apply (Hattrs "pages")]; simpl; tauto.
Defined.

(** * Further properties of the code *)

Section extras.
Context `{Mp : Mapper} `{Pl : !Plugins} `{Sf : !SessionFields}.

(** X1.  The fields collection the constructor builds is the declared
    fields followed by one entry per public property name that is not
    declared, in the order of [model_properties]; for [ModelSerializer]
    itself its keys are exactly the public property names.  The store grows
    by one default [Field] per public property name (declared or not) and
    nothing else changes. *)
Theorem init_fields_exact
    (cls : SerializerClass) (model_class : ModelClass) (st : state) :
  exists (self : ModelSerializer) (added : pydict loc),
    let names := dict_keys (model_properties self) in
    __init__ cls model_class st =
      (Ok self,
       mkState _ (st_fields st ++ replicate (length (public_names names)) Field_new)
               (st_objs st) (st_warnings st)) /\
    _mapper_class self = model_class /\
    fields self = _get_declared_fields cls ++ added /\
    dict_keys added =
      filter (fun n => Is_true (negb (dict_contains n (_get_declared_fields cls))))
             (public_names names) /\
    (cls_is_ModelSerializer cls = true -> dict_keys (fields self) = public_names names).
Proof.
  unfold __init__.
  set (self0 := mkModelSerializer _ model_class (_get_declared_fields cls) cls).
  destruct (collect_properties_exact (dict_keys (model_properties self0)) (_fields self0) st
              (model_properties_wf self0)) as (added & Hrun & Hkeys & _ & _).
  cbv zeta in Hrun.
  exists (mkModelSerializer _ model_class (_fields self0 ++ added) cls), added.
  cbv zeta. rewrite (bind_ok _ _ _ _ _ Hrun).
  assert (Hkeys' : dict_keys added =
    filter (fun n => Is_true (negb (dict_contains n (_get_declared_fields cls))))
           (public_names (dict_keys (model_properties self0)))).
  { rewrite Hkeys. unfold public_names. rewrite list_filter_filter.
    apply list_filter_iff. intros n. simpl.
    destruct (startswith_underscore n), (dict_contains n (_get_declared_fields cls));
      simpl; tauto. }
  split_and!; [reflexivity | done | done | exact Hkeys' |].
  intros Hbase.
  assert (Hd : _get_declared_fields cls = [])
    by (unfold _get_declared_fields; by rewrite Hbase).
  change (dict_keys (_get_declared_fields cls ++ added) =
          public_names (dict_keys (model_properties self0))).
  rewrite Hd. cbn [app]. rewrite Hkeys', Hd. by apply filter_all.
Qed.

(** X2.  [model_properties] maps every column and composite name once:
    a composite wins over a column of the same name, which keeps the
    column's position; the columns come first and the other composites
    follow, each group in its own order. *)
Theorem model_properties_merge (self : ModelSerializer) :
  wf_dict (model_columns self) ->
  wf_dict (model_composites self) ->
  wf_dict (model_properties self) /\
  (forall name,
     dict_get name (model_properties self) =
     match dict_get name (model_composites self) with
     | Some composite => Some composite
     | None => dict_get name (model_columns self)
     end) /\
  dict_keys (model_properties self) =
    dict_keys (model_columns self) ++
    filter (fun n => Is_true (negb (dict_contains n (model_columns self))))
           (dict_keys (model_composites self)).
Proof.
  intros Hc Hp. split; [apply model_properties_wf|].
  rewrite model_properties_updates.
  rewrite (dict_update_fresh (model_columns self) []) by done. simpl.
  split; [intros name; by apply dict_get_update | by apply dict_keys_update_order].
Qed.

(** X3.  When the declared fields refer to objects of the store, the
    constructor returns a fields collection with unique keys whose entries
    all refer to [Field] objects, and two different names share a [Field]
    object only if both were declared with it: an implicit field is never
    shared. *)
Theorem init_fields_unshared
    (cls : SerializerClass) (model_class : ModelClass) (st : state) :
  (forall name l, dict_get name (_get_declared_fields cls) = Some l ->
                  l < length (st_fields st)) ->
  exists (self : ModelSerializer) (st' : state),
    __init__ cls model_class st = (Ok self, st') /\
    wf_dict (fields self) /\
    fields_valid self st' /\
    (forall name1 name2 l,
       name1 <> name2 ->
       dict_get name1 (fields self) = Some l ->
       dict_get name2 (fields self) = Some l ->
       dict_get name1 (_get_declared_fields cls) = Some l /\
       dict_get name2 (_get_declared_fields cls) = Some l).
Proof.
  intros Hvalid. unfold __init__.
  set (self0 := mkModelSerializer _ model_class (_get_declared_fields cls) cls).
  destruct (collect_properties_exact (dict_keys (model_properties self0)) (_fields self0) st
              (model_properties_wf self0)) as (added & Hrun & Hkeys & Hrange & Hdist).
  cbv zeta in *. rewrite (bind_ok _ _ _ _ _ Hrun).
  eexists _, _. split; [reflexivity|]. unfold fields. simpl.
  set (declared := _get_declared_fields cls) in *.
  rewrite Forall_forall in Hrange.
  assert (Hsplit : forall name l,
    dict_get name (declared ++ added) = Some l ->
    dict_get name declared = Some l \/
    (dict_get name declared = None /\ In (name, l) added)).
  { intros name l. rewrite dict_get_app.
    destruct (dict_get name declared); [by left | right; split; [done|]].
    by apply dict_get_Some_In. }
  assert (Hnew : forall name l, In (name, l) added -> length (st_fields st) <= l <
    length (st_fields st) +
    length (filter (fun n => Is_true (negb (startswith_underscore n)))
                   (dict_keys (model_properties self0)))).
  { intros name l Hin. apply Hrange. apply list_elem_of_In.
    apply (in_map snd) in Hin. exact Hin. }
  split_and!.
  - unfold wf_dict, dict_keys. rewrite map_app. apply NoDup_app. split_and!.
    + apply declared_fields_wf.
    + intros x Hx Hx'. fold (dict_keys added) in Hx'. rewrite Hkeys in Hx'.
      apply list_elem_of_filter in Hx' as [Hx' _]. simpl in Hx'.
      apply list_elem_of_In, dict_contains_keys in Hx. fold declared in Hx.
      rewrite Hx in Hx'. by rewrite andb_false_r in Hx'.
    + fold (dict_keys added). rewrite Hkeys. apply NoDup_filter, model_properties_wf.
  - intros name l Hl. simpl. apply lookup_lt_is_Some. rewrite length_app, length_replicate.
    destruct (Hsplit _ _ Hl) as [Hd|[_ Hin]]; [apply Hvalid in Hd; lia|].
    apply Hnew in Hin. lia.
  - intros n1 n2 l Hne H1 H2.
    destruct (Hsplit _ _ H1) as [Hd1|[_ Hin1]], (Hsplit _ _ H2) as [Hd2|[_ Hin2]].
    + done.
    + apply Hvalid in Hd1. apply Hnew in Hin2. lia.
    + apply Hvalid in Hd2. apply Hnew in Hin1. lia.
    + exfalso. apply Hne. by eapply NoDup_snd_In.
Qed.

(** X4.  When no two names of the fields collection share a [Field]
    object, a second [dump] of the same model right after a successful one
    returns the same dict and changes nothing: the first call has attached
    every default serializer the second one would look for. *)
Theorem dump_twice_same
    (self : ModelSerializer) (model : loc) (st st' : state) (serial : pydict value) :
  wf_dict (fields self) ->
  NoDup (map snd (fields self)) ->
  dump self model st = (Ok serial, st') ->
  dump self model st' = (Ok serial, st').
Proof.
  intros Hwf Hnd. rewrite !dump_eq_spec by done. by apply dump_spec_settled.
Qed.

(** X5.  When at most one of the three column checks holds of the model
    property, as for the column types the checks are written for, lazy
    assignment on an unset field attaches the first (and only) matching
    serializer type, and none if there is no match. *)
Theorem assign_default_first_match_when_exclusive
    (self : ModelSerializer) (field : loc) (property_name : string)
    (st : state) (f : Field) (p : ModelProperty) :
  st_fields st !! field = Some f ->
  _serializer f = None ->
  dict_get property_name (model_properties self) = Some p ->
  is_datetime_column p && is_date_column p = false ->
  is_datetime_column p && is_enum_column p = false ->
  is_date_column p && is_enum_column p = false ->
  _assign_default_field_serializer self field property_name st =
  (Ok tt,
   match first_matching p with
   | Some c => with_field field (set_serializer f (mkSerializer _ c (Some p))) st
   | None => st
   end).
Proof.
  intros Hf Hs Hp H12 H13 H23.
  rewrite (assign_default_unset self field property_name st f p Hf Hs Hp).
  replace (last_matching p) with (first_matching p); [done|].
  unfold first_matching, last_matching. rewrite matching_serializers_cases.
  by destruct (is_datetime_column p), (is_date_column p), (is_enum_column p).
Qed.

(** X6.  On the update path a serialized dict all of whose keys are
    unknown or name dump-only or creation-only fields (an empty dict
    included) leaves every field and every model exactly as it was:
    [load] returns the existing instance and only adds one warning per
    unknown key, in input order; the skipped keys are not reported. *)
Theorem load_skipped_keys_change_nothing
    (self : ModelSerializer) (serialized : pydict value) (existing : loc)
    (session : option Session) (st : state) :
  truthy st (Some existing) = true ->
  (forall k v field,
     In (k, v) serialized -> dict_get k (fields self) = Some field ->
     exists f, st_fields st !! field = Some f /\
               (dump_only f = true \/ creation_only f = true)) ->
  load self serialized (Some existing) session st =
  (Ok existing,
   mkState _ (st_fields st) (st_objs st)
           (st_warnings st ++ unknown_warnings self serialized)).
Proof.
  intros Ht Hskip. rewrite (load_update_path self serialized existing session st Ht).
  rewrite load_loop_skipped; [done|].
  intros k v field Hin Hk. destruct (Hskip k v field Hin Hk) as (f & Hf & Hpol).
  exists f. split; [done|]. rewrite Ht, andb_true_r. tauto.
Qed.

(** X7.  Patch semantics on plain fields: called with a truthy existing
    model and a dict whose known keys name plain pass-through fields,
    [load] returns the instance, and afterwards an attribute reads as the
    dict's value if its name is a key of the dict and of the fields
    collection, and as before otherwise.  No field object and no other
    model changes. *)
Theorem load_patches_plain_fields
    (self : ModelSerializer) (serialized : pydict value) (existing : loc)
    (session : option Session) (st : state) :
  truthy st (Some existing) = true ->
  wf_dict serialized ->
  (forall k v field,
     In (k, v) serialized -> dict_get k (fields self) = Some field ->
     plain_field self st k field) ->
  exists st',
    load self serialized (Some existing) session st = (Ok existing, st') /\
    st_fields st' = st_fields st /\
    (forall l, l <> existing -> st_objs st' !! l = st_objs st !! l) /\
    (forall name,
       getattr_default st' existing name =
       match dict_get name serialized with
       | Some v => if dict_contains name (fields self) then v
                   else getattr_default st existing name
       | None => getattr_default st existing name
       end).
Proof.
  intros Ht Hwf Hplain. rewrite (load_update_path self serialized existing session st Ht).
  assert (Ho : exists o, st_objs st !! existing = Some o).
  { simpl in Ht. destruct (st_objs st !! existing); [eauto | done]. }
  destruct Ho as [o Ho].
  rewrite (load_loop_plain_unknown self existing (Some existing) session serialized st o
             Hplain Ho).
  eexists. split; [reflexivity|]. split_and!; [done | |].
  - intros l Hne. simpl. by apply list_lookup_insert_ne.
  - intros name. rewrite (getattr_after_update self _ _ _ _ o) by done.
    unfold getattr_default. by rewrite Ho.
Qed.

(** X8.  Round trip from the dict side: with plain pass-through fields
    only and the default [_create_model], [load] of a dict followed by a
    [dump] of the model it returns gives one entry per field, whose value
    is the dict's value for that key, or the new instance's own attribute
    ([None] if it has none) when the dict has no such key; keys of the dict
    that are no fields are dropped. *)
Theorem dump_load_roundtrip
    (self : ModelSerializer) (serialized : pydict value)
    (session : option Session) (st : state) :
  wf_dict (fields self) ->
  wf_dict serialized ->
  plain_fields self st ->
  cls_create_model (serializer_cls self) = None ->
  exists model st' serial,
    load self serialized None session st = (Ok model, st') /\
    dump self model st' = (Ok serial, st') /\
    dict_keys serial = dict_keys (fields self) /\
    (forall name, In name (dict_keys (fields self)) ->
       dict_get name serial =
       Some (match dict_get name serialized with
             | Some v => v
             | None => default VNone
                         (dict_get name (obj_attrs (cls_new (model_class self))))
             end)).
Proof.
  intros Hwf Hwfs Hplain Hdefault.
  rewrite (load_creation_path self serialized None session st eq_refl).
  rewrite (create_model_default self serialized st Hdefault).
  set (m := length (st_objs st)).
  set (o := cls_new (model_class self)).
  set (st1 := mkState _ (st_fields st) (st_objs st ++ [o]) (st_warnings st)).
  assert (Hm : st_objs st1 !! m = Some o).
  { subst st1 m. simpl. rewrite lookup_app_r by done. by rewrite Nat.sub_diag. }
  assert (Hplain1 : forall k v field,
    In (k, v) serialized -> dict_get k (fields self) = Some field ->
    plain_field self st1 k field).
  { intros k v field _ Hk. apply (plain_field_same_fields self st); [done|].
    apply Hplain. by apply dict_get_Some_In. }
  rewrite (load_loop_plain_unknown self m None session serialized st1 o Hplain1 Hm).
  set (st' := mkState _ _ _ _).
  assert (Hplain' : plain_fields self st').
  { intros name field Hin. apply (plain_field_same_fields self st); [done|]. by apply Hplain. }
  exists m, st'. eexists. split; [reflexivity|].
  rewrite (dump_eq_spec self m st' Hwf).
  rewrite (dump_spec_plain self m st' (fields self) Hplain').
  split; [reflexivity|]. split.
  - unfold dict_keys. rewrite map_map. done.
  - intros name Hname. apply dict_get_In_wf.
    + unfold wf_dict, dict_keys. rewrite map_map. exact Hwf.
    + apply in_map_iff in Hname as [[n field] [<- Hin]].
      apply in_map_iff. exists (n, field). split; [|done]. simpl. f_equal.
      subst st'. rewrite (getattr_after_update self _ _ _ _ o) by done.
      assert (Hc : dict_contains n (fields self) = true).
      { apply dict_contains_keys. apply (in_map fst) in Hin. exact Hin. }
      rewrite Hc. done.
Qed.

(** X9.  [load] is not atomic: when the conversion of a key raises, the
    exception comes out of [load] and the keys before it stay assigned on
    the existing model (here for plain fields before the failing key). *)
Theorem load_keeps_assignments_before_raise
    (self : ModelSerializer) (before rest : pydict value) (key : string) (v : value)
    (existing : loc) (session : option Session) (st : state)
    (field : loc) (f : Field) (e : exn) :
  truthy st (Some existing) = true ->
  wf_dict before ->
  (forall k v field,
     In (k, v) before -> dict_get k (fields self) = Some field ->
     plain_field self st k field) ->
  dict_get key (fields self) = Some field ->
  st_fields st !! field = Some f ->
  dump_only f = false ->
  creation_only f = false ->
  deserialized_value (lazily_assigned self key f) v session = Raise e ->
  exists st',
    load self (before ++ (key, v) :: rest) (Some existing) session st = (Raise e, st') /\
    (forall name,
       getattr_default st' existing name =
       match dict_get name before with
       | Some v => if dict_contains name (fields self) then v
                   else getattr_default st existing name
       | None => getattr_default st existing name
       end).
Proof.
  intros Ht Hwf Hplain Hk Hf Hdo Hco Hraise.
  rewrite (load_update_path self _ existing session st Ht).
  assert (Ho : exists o, st_objs st !! existing = Some o).
  { simpl in Ht. destruct (st_objs st !! existing); [eauto | done]. }
  destruct Ho as [o Ho].
  rewrite (for_each_app _ _ _ _ _
             (load_loop_plain_unknown self existing (Some existing) session before st o
                Hplain Ho)).
  set (st1 := mkState _ _ _ _). cbn [for_each].
  assert (Hstep : load_item self existing (Some existing) session (key, v) st1 =
                  (Raise e, with_field field (lazily_assigned self key f) st1)).
  { assert (Hf1 : st_fields st1 !! field = Some f) by exact Hf.
    rewrite (load_item_known self existing (Some existing) session key v st1 field f Hk Hf1).
    rewrite Hdo, Hco. simpl. unfold apply_item.
    rewrite (bind_ok _ _ _ _ _ (assign_default_eq self field key st1 f Hf1)).
    rewrite (bind_ok _ _ _ _ _ (get_field_ok _ _ _ (with_field_lookup _ _ _ _ Hf1))).
    rewrite bind_unfold. unfold lift_res. by rewrite Hraise. }
  rewrite (bind_raise _ _ _ _ _ Hstep).
  eexists. split; [reflexivity|].
  intros name.
  refine (eq_trans (getattr_after_update self
                      (<[field := lazily_assigned self key f]> (st_fields st))
                      (st_objs st) (st_warnings st ++ unknown_warnings self before)
                      existing o before name Ho Hwf) _).
  unfold getattr_default. by rewrite Ho.
Qed.

(** X10.  What [load] never does (with a truthy existing model, or with
    the default [_create_model]): it never removes a field object, never
    changes an access-policy flag, never removes or replaces a serializer
    that is set, never drops a warning, and never touches a model other than
    the existing instance it updates; on the creation path every model that
    existed before is left as it was.  This holds also when [load] raises. *)
Theorem load_preserves_fields_and_other_models
    (self : ModelSerializer) (serialized : pydict value) (existing_model : option loc)
    (session : option Session) (st st' : state) (r : res loc) :
  truthy st existing_model = true \/ cls_create_model (serializer_cls self) = None ->
  load self serialized existing_model session st = (r, st') ->
  length (st_fields st') = length (st_fields st) /\
  (forall l f, st_fields st !! l = Some f ->
     exists f', st_fields st' !! l = Some f' /\
       load_only f' = load_only f /\ dump_only f' = dump_only f /\
       creation_only f' = creation_only f /\
       forall s, _serializer f = Some s -> _serializer f' = Some s) /\
  (exists emitted, st_warnings st' = st_warnings st ++ emitted) /\
  (forall l o, st_objs st !! l = Some o ->
     (truthy st existing_model = true -> existing_model <> Some l) ->
     st_objs st' !! l = Some o).
Proof.
  intros Hpath Hrun.
  destruct (load_frame_paths self serialized existing_model session st st' r Hpath Hrun)
    as (m & st1 & (Hf & _ & Hobj & [emitted Hw]) & Hf1 & Hw1 & Hcase).
  split_and!.
  - apply Forall2_length in Hf. by rewrite <- Hf, Hf1.
  - intros l f Hl. rewrite <- Hf1 in Hl.
    destruct (fields_extend_lookup _ _ _ _ Hf Hl) as (f' & Hl' & Hff).
    exists f'. destruct (field_extends_flags _ _ Hff) as (H1 & H2 & H3 & _).
    split_and!; try done. intros s Hs. by eapply field_extends_serializer.
  - exists emitted. by rewrite Hw, Hw1.
  - intros l o Hl Hother.
    destruct Hcase as [(Ht & -> & ->)|(Ht & -> & o0 & Hobjs)].
    + destruct (Hobj _ _ Hl) as (o' & -> & _ & Hne). f_equal. apply Hne.
      intros ->. by apply (Hother Ht).
    + assert (Hl1 : st_objs st1 !! l = Some o).
      { rewrite Hobjs. apply lookup_app_l_Some. exact Hl. }
      destruct (Hobj _ _ Hl1) as (o' & -> & _ & Hne). f_equal. apply Hne.
      apply lookup_lt_Some in Hl. lia.
Qed.

(** X11.  Construction followed by [dump]: for a serializer resolved by the
    constructor, a [dump] that returns has a key for every public property
    name of the model unless a field declared under that name is load-only;
    for [ModelSerializer] itself the keys are exactly the public property
    names, in their order. *)
Theorem init_then_dump_keys
    (cls : SerializerClass) (model_class : ModelClass) (model : loc)
    (st st1 st2 : state) (self : ModelSerializer) (serial : pydict value) :
  (forall name l, dict_get name (_get_declared_fields cls) = Some l ->
                  l < length (st_fields st)) ->
  __init__ cls model_class st = (Ok self, st1) ->
  dump self model st1 = (Ok serial, st2) ->
  (forall name,
     In name (public_names (dict_keys (model_properties self))) ->
     (forall l f, dict_get name (_get_declared_fields cls) = Some l ->
                  st_fields st !! l = Some f -> load_only f = false) ->
     In name (dict_keys serial)) /\
  (cls_is_ModelSerializer cls = true ->
   dict_keys serial = public_names (dict_keys (model_properties self))).
Proof.
  intros Hvalid Hinit Hdump.
  destruct (init_closed_form cls model_class st) as (added & Hrun & Hkeys & Hrange & Hdist).
  cbv zeta in *. rewrite Hrun in Hinit. injection Hinit as <- <-.
  set (declared := _get_declared_fields cls) in *.
  set (self := mkModelSerializer _ model_class (declared ++ added) cls) in *.
  set (names := dict_keys (model_properties self)) in *.
  set (st1 := mkState _ _ _ _) in *.
  rewrite Forall_forall in Hrange.
  assert (Hnew : forall name l, In (name, l) added -> st_fields st1 !! l = Some Field_new).
  { intros name l Hin.
    assert (Hl : length (st_fields st) <= l < length (st_fields st) + length (public_names names)).
    { apply Hrange. apply list_elem_of_In. apply (in_map snd) in Hin. exact Hin. }
    subst st1. simpl. rewrite lookup_app_r by lia.
    apply lookup_replicate. split; [done | lia]. }
  assert (Hwf : wf_dict (fields self)).
  { unfold wf_dict, fields, dict_keys. simpl. rewrite map_app. apply NoDup_app. split_and!.
    - apply declared_fields_wf.
    - intros x Hx Hx'. fold (dict_keys added) in Hx'. rewrite Hkeys in Hx'.
      apply list_elem_of_filter in Hx' as [Hx' _]. simpl in Hx'.
      apply list_elem_of_In, dict_contains_keys in Hx. fold declared in Hx.
      rewrite Hx in Hx'. by rewrite andb_false_r in Hx'.
    - fold (dict_keys added). rewrite Hkeys. apply NoDup_filter, model_properties_wf. }
  rewrite (dump_eq_spec self model st1 Hwf) in Hdump.
  destruct (dump_spec_keys self model (fields self) st1 st2 serial Hdump) as [-> _].
  split.
  - intros name Hname Hlo.
    apply list_elem_of_In in Hname. apply list_elem_of_filter in Hname as [Hpub Hname].
    destruct (dict_get name declared) as [l|] eqn:Hd.
    + assert (Hin : In (name, l) (fields self)).
      { unfold fields. simpl. apply in_or_app. left. by apply dict_get_Some_In. }
      apply (in_map fst (filter _ _) (name, l)). apply list_elem_of_In.
      apply list_elem_of_filter. split; [|by apply list_elem_of_In].
      unfold dumps_field. simpl.
      pose proof (Hvalid name l Hd) as Hlt.
      destruct (lookup_lt_is_Some_2 (st_fields st) l Hlt) as [f Hf].
      rewrite (lookup_app_l_Some _ _ _ _ Hf). by rewrite (Hlo l f eq_refl Hf).
    + assert (Hk : name ∈ dict_keys added).
      { rewrite Hkeys. apply list_elem_of_filter. split; [|done].
        unfold dict_contains. rewrite Hd. simpl. by rewrite andb_true_r. }
      apply list_elem_of_fmap in Hk as ([n l] & -> & Hin). simpl.
      apply list_elem_of_In in Hin.
      apply (in_map fst (filter _ _) (n, l)). apply list_elem_of_In.
      apply list_elem_of_filter. split.
      * unfold dumps_field. cbn [snd]. by rewrite (Hnew n l Hin).
      * apply list_elem_of_In. unfold fields. simpl. apply in_or_app. by right.
  - intros Hbase.
    assert (Hd : declared = [])
      by (subst declared; unfold _get_declared_fields; by rewrite Hbase).
    unfold fields. simpl. rewrite Hd. cbn [app].
    rewrite filter_all_In.
    + fold (dict_keys added). rewrite Hkeys, Hd. unfold public_names.
      apply filter_ext_In. intros n _. simpl. by rewrite andb_true_r.
    + intros [n l] Hin. unfold dumps_field. cbn [snd]. by rewrite (Hnew n l Hin).
Qed.

(** X12.  Round trip through serializers: when no field is restricted or
    shared, every field object is truthy and every serializer's [load]
    inverts its [dump], then [load] of what a successful [dump] returned
    (right after it, with the default [_create_model]) returns a new
    instance whose attribute under every field name equals the original
    model's; fields may carry explicit or lazily attached serializers. *)
Theorem load_dump_roundtrip_serializers
    (self : ModelSerializer) (model : loc) (session : option Session)
    (st st1 : state) (serial : pydict value) :
  wf_dict (fields self) ->
  NoDup (map snd (fields self)) ->
  open_fields self st ->
  loads_invert_dumps ->
  cls_create_model (serializer_cls self) = None ->
  dump self model st = (Ok serial, st1) ->
  exists model' st',
    load self serial None session st1 = (Ok model', st') /\
    model' = length (st_objs st) /\
    forall name, In name (dict_keys (fields self)) ->
                 getattr_default st' model' name = getattr_default st model name.
Proof.
  intros Hwf Hnd Hopen Hinv Hdefault Hdump.
  rewrite (dump_eq_spec self model st Hwf) in Hdump.
  destruct (dump_spec_open self model (fields self) st st1 serial Hnd Hopen Hdump)
    as (Hkeys & Hobjs & Hentries).
  rewrite (load_creation_path self serial None session st1 eq_refl).
  rewrite (create_model_default self serial st1 Hdefault). rewrite Hobjs.
  set (m := length (st_objs st)).
  set (o := cls_new (model_class self)).
  set (st2 := mkState _ (st_fields st1) (st_objs st ++ [o]) (st_warnings st1)).
  assert (Hm : st_objs st2 !! m = Some o).
  { subst st2 m. simpl. rewrite lookup_app_r by done. by rewrite Nat.sub_diag. }
  rewrite (load_loop_settled self m session (getattr_default st model) serial st2 o);
    [| |exact Hm].
  - eexists _, _. split; [reflexivity|]. split; [reflexivity|].
    intros name Hname. unfold getattr_default at 1. simpl.
    rewrite list_lookup_insert_eq by (by eapply lookup_lt_Some). simpl.
    rewrite (dict_get_update_In _ _ name (getattr_default st model name)); [done | |].
    + assert (Hk : dict_keys (map (fun item : string * value =>
                                     (item.1, getattr_default st model item.1)) serial) =
                   dict_keys serial) by (unfold dict_keys; by rewrite map_map).
      unfold wf_dict. by rewrite Hk, Hkeys.
    + rewrite <- Hkeys in Hname. apply in_map_iff in Hname as [[n v] [<- Hin]].
      apply in_map_iff. by exists (n, v).
  - intros k v Hin. destruct (Hentries k v Hin) as (l & f & Hil & Hf & Hf1 & Hd).
    destruct (Hopen k l Hil) as (f0 & Hf0 & Hof). rewrite Hf in Hf0. injection Hf0 as <-.
    exists l, (lazily_assigned self k f). split_and!.
    + by apply dict_get_In_wf.
    + exact Hf1.
    + apply lazily_assigned_twice.
    + eapply open_field_extends; [apply lazily_assigned_extends | done].
    + unfold Field_dump in Hd. unfold Field_load.
      destruct (_serializer (lazily_assigned self k f)) as [s|]; [by apply Hinv|].
      by injection Hd as <-.
Qed.

(** X13.  The session is used only for session-based fields: when no
    field object is a [SessionBasedField], [load] returns the same result
    and leaves the same state whatever session it is given (with a truthy
    existing model, or with the default [_create_model]). *)
Theorem load_ignores_session_without_session_fields
    (self : ModelSerializer) (serialized : pydict value) (existing_model : option loc)
    (session session' : option Session) (st : state) :
  truthy st existing_model = true \/ cls_create_model (serializer_cls self) = None ->
  no_session_fields st ->
  load self serialized existing_model session st =
  load self serialized existing_model session' st.
Proof.
  intros Hpath Hns. destruct (truthy st existing_model) eqn:Ht.
  - destruct existing_model as [existing|]; [|done].
    rewrite !(load_update_path self serialized existing _ st Ht).
    by rewrite (load_loop_session_irrelevant self existing (Some existing) session session').
  - destruct Hpath as [|Hdefault]; [done|].
    rewrite !(load_creation_path self serialized existing_model _ st Ht).
    rewrite (create_model_default self serialized st Hdefault).
    by rewrite (load_loop_session_irrelevant self _ existing_model session session').
Qed.

(** X14.  On the creation path with the default [_create_model], [load]
    returns a new instance, the next one of the store, whenever the fields
    collection refers to [Field] objects and no conversion raises: the
    assertion on the created model never fires. *)
Theorem load_creates_new_instance
    (self : ModelSerializer) (serialized : pydict value) (existing_model : option loc)
    (session : option Session) (st : state) :
  truthy st existing_model = false ->
  cls_create_model (serializer_cls self) = None ->
  fields_valid self st ->
  loads_never_raise ->
  exists st',
    load self serialized existing_model session st = (Ok (length (st_objs st)), st') /\
    length (st_objs st') = S (length (st_objs st)).
Proof.
  intros Ht Hdefault Hvalid Hnr.
  rewrite (load_creation_path self serialized existing_model session st Ht).
  rewrite (create_model_default self serialized st Hdefault).
  set (m := length (st_objs st)).
  set (st1 := mkState _ (st_fields st) (st_objs st ++ [cls_new (model_class self)])
                      (st_warnings st)).
  assert (Hm : is_Some (st_objs st1 !! m)).
  { subst st1 m. simpl. rewrite lookup_app_r by done. rewrite Nat.sub_diag. eauto. }
  destruct (load_loop_ok self m existing_model session serialized st1 Hvalid Hnr Hm)
    as [st' Hloop].
  pose proof (load_loop_frame self m existing_model session serialized st1) as Hfr.
  rewrite Hloop in *. simpl in Hfr. destruct Hfr as (_ & Hlen & _).
  exists st'. split; [done|]. rewrite Hlen. subst st1. simpl.
  rewrite length_app. simpl. lia.
Qed.

(** X15.  Two serializers of the same class over the same model,
    constructed one after the other, have the same keys; a declared field
    is the same object in both, an implicit field is a different object in
    each, and the second construction leaves the field objects of the first
    untouched. *)
Theorem init_twice_shares_declared_only
    (cls : SerializerClass) (model_class : ModelClass)
    (st st1 st2 : state) (self1 self2 : ModelSerializer) :
  (forall name l, dict_get name (_get_declared_fields cls) = Some l ->
                  l < length (st_fields st)) ->
  __init__ cls model_class st = (Ok self1, st1) ->
  __init__ cls model_class st1 = (Ok self2, st2) ->
  dict_keys (fields self1) = dict_keys (fields self2) /\
  (forall name l1 l2,
     dict_get name (fields self1) = Some l1 ->
     dict_get name (fields self2) = Some l2 ->
     (l1 = l2 <-> dict_get name (_get_declared_fields cls) = Some l1)) /\
  (forall l f, st_fields st1 !! l = Some f -> st_fields st2 !! l = Some f).
Proof.
  intros Hvalid Hinit1 Hinit2.
  destruct (init_closed_form cls model_class st) as (added1 & Hrun1 & Hkeys1 & Hrange1 & _).
  destruct (init_closed_form cls model_class st1) as (added2 & Hrun2 & Hkeys2 & Hrange2 & _).
  cbv zeta in *. rewrite Hrun1 in Hinit1. rewrite Hrun2 in Hinit2.
  injection Hinit1 as <- <-. injection Hinit2 as <- <-.
  set (declared := _get_declared_fields cls) in *.
  rewrite Forall_forall in Hrange1, Hrange2. simpl in Hrange2.
  rewrite length_app, length_replicate in Hrange2.
  assert (Hsplit : forall (added : pydict loc) name l,
    dict_get name (declared ++ added) = Some l ->
    dict_get name declared = Some l \/
    (dict_get name declared = None /\ In l (map snd added))).
  { intros added name l. rewrite dict_get_app.
    destruct (dict_get name declared); [by left|].
    intros Hg. right. split; [done|].
    apply dict_get_Some_In in Hg. apply (in_map snd) in Hg. exact Hg. }
  split_and!.
  - unfold fields, dict_keys. simpl. rewrite !map_app. f_equal.
    fold (dict_keys added1) (dict_keys added2). by rewrite Hkeys1, Hkeys2.
  - unfold fields. simpl. intros name l1 l2 H1 H2.
    destruct (Hsplit _ _ _ H1) as [Hd1|[Hn1 Hin1]], (Hsplit _ _ _ H2) as [Hd2|[Hn2 Hin2]].
    + rewrite Hd1 in Hd2. injection Hd2 as <-. tauto.
    + congruence.
    + congruence.
    + apply list_elem_of_In, Hrange1 in Hin1. apply list_elem_of_In, Hrange2 in Hin2.
      split; [lia | congruence].
  - intros l f Hl. simpl. by apply lookup_app_l_Some.
Qed.

End extras.

(** ** Concrete runs of the further properties *)

Lemma model_properties_merge_witness :
  dict_keys (model_properties span_serializer) = ["start"; "stop"; "range"] /\
  dict_get "start" (model_properties span_serializer) = Some composite_property.
Proof.
  destruct (model_properties_merge (Mp := demo_mapper) span_serializer) as (_ & Hget & Hkeys).
  - apply (bool_decide_unpack _). vm_compute. exact I.
  - apply (bool_decide_unpack _). vm_compute. exact I.
  - split; [rewrite Hkeys; reflexivity | rewrite Hget; reflexivity].
Defined.

Lemma init_fields_unshared_witness :
  exists self st',
    __init__ UserSerializerCls User user_state0 = (Ok self, st') /\
    wf_dict (fields self) /\ fields_valid self st'.
Proof.
  destruct (init_fields_unshared (Mp := demo_mapper) UserSerializerCls User user_state0)
    as (self & st' & Hrun & Hwf & Hvalid & _).
  - intros name l Hl. apply dict_get_Some_In in Hl. simpl in Hl.
    destruct Hl as [Heq|[]]. injection Heq as <- <-. simpl. lia.
  - exists self, st'. split_and!; assumption.
Defined.

Lemma dump_twice_same_witness :
  exists serial st',
    dump (Pl := demo_plugins) user_serializer 0 user_state = (Ok serial, st') /\
    dump (Pl := demo_plugins) user_serializer 0 st' = (Ok serial, st').
Proof.
  eexists _, _. split; [reflexivity|].
  apply (dump_twice_same (Pl := demo_plugins) user_serializer 0 user_state).
  - apply (bool_decide_unpack _). vm_compute. exact I.
  - apply (bool_decide_unpack _). vm_compute. exact I.
  - reflexivity.
Defined.

Lemma assign_default_first_match_when_exclusive_witness :
  serializer_at
    (_assign_default_field_serializer user_serializer 2 "created_at" user_state).2 2 =
  Some (mkSerializer demo_mapper DateTimeColumnSerializer (Some datetime_property)).
Proof.
  rewrite (assign_default_first_match_when_exclusive (Mp := demo_mapper)
             user_serializer 2 "created_at" user_state Field_new datetime_property
             eq_refl eq_refl eq_refl eq_refl eq_refl eq_refl).
  reflexivity.
Defined.

Lemma load_skipped_keys_change_nothing_witness :
  load (Pl := demo_plugins) (Sf := demo_session_fields)
       user_serializer [("id", VInt 9); ("bogus", VNone)] (Some 0) None user_state =
  (Ok 0, mkState demo_mapper (st_fields user_state) (st_objs user_state)
                 ["Field 'bogus' not defined for User"]).
Proof.
  apply (load_skipped_keys_change_nothing (Pl := demo_plugins) (Sf := demo_session_fields)
           user_serializer [("id", VInt 9); ("bogus", VNone)] 0 None user_state eq_refl).
  intros k v field Hin Hk. simpl in Hin.
  destruct Hin as [Heq|[Heq|[]]]; injection Heq as <- <-; vm_compute in Hk;
    [injection Hk as <- | discriminate Hk].
  exists dump_only_field. split; [reflexivity | left; reflexivity].
Defined.

Lemma load_patches_plain_fields_witness :
  exists st',
    load (Pl := demo_plugins) (Sf := demo_session_fields)
         note_serializer [("title", VStr "Agenda")] (Some 0) None note_state = (Ok 0, st') /\
    getattr_default st' 0 "title" = VStr "Agenda" /\
    getattr_default st' 0 "pages" = VInt 3.
Proof.
  destruct (load_patches_plain_fields (Pl := demo_plugins) (Sf := demo_session_fields)
              note_serializer [("title", VStr "Agenda")] 0 None note_state eq_refl)
    as (st' & Hrun & _ & _ & Hget).
  - apply (bool_decide_unpack _). vm_compute. exact I.
  - intros k v field Hin Hk. simpl in Hin. destruct Hin as [Heq|[]].
    injection Heq as <- <-. vm_compute in Hk. injection Hk as <-.
    exists Field_new. repeat (split; [reflexivity|]).
    intros p Hp. vm_compute in Hp. injection Hp as <-. by vm_compute.
  - exists st'. split; [exact Hrun|]. by rewrite !Hget.
Defined.

Lemma dump_load_roundtrip_witness :
  exists model st' serial,
    load (Pl := demo_plugins) (Sf := demo_session_fields)
         note_serializer [("title", VStr "Agenda"); ("bogus", VInt 1)] None None note_state =
      (Ok model, st') /\
    dump (Pl := demo_plugins) note_serializer model st' = (Ok serial, st') /\
    dict_get "title" serial = Some (VStr "Agenda") /\
    dict_get "pages" serial = Some VNone.
Proof.
  destruct (dump_load_roundtrip (Pl := demo_plugins) (Sf := demo_session_fields)
              note_serializer [("title", VStr "Agenda"); ("bogus", VInt 1)] None note_state)
    as (model & st' & serial & Hload & Hdump & _ & Hget).
  - apply (bool_decide_unpack _). vm_compute. exact I.
  - apply (bool_decide_unpack _). vm_compute. exact I.
  - intros name field Hin. simpl in Hin.
    destruct Hin as [Heq|[Heq|[]]]; injection Heq as <- <-;
      (exists Field_new; repeat (split; [reflexivity|]);
       intros p Hp; vm_compute in Hp; injection Hp as <-; by vm_compute).
  - reflexivity.
  - exists model, st', serial. split; [exact Hload|]. split; [exact Hdump|].
    split; [apply (Hget "title") | apply (Hget "pages")]; simpl; tauto.
Defined.

Lemma load_keeps_assignments_before_raise_witness :
  exists st',
    load (Pl := demo_plugins) (Sf := demo_session_fields)
         user_serializer [("name", VStr "Bob"); ("created_at", VStr "soon")]
         (Some 0) None user_state = (Raise (ConversionError "load"), st') /\
    getattr_default st' 0 "name" = VStr "Bob".
Proof.
  destruct (load_keeps_assignments_before_raise
              (Pl := demo_plugins) (Sf := demo_session_fields)
              user_serializer [("name", VStr "Bob")] [] "created_at" (VStr "soon")
              0 None user_state 2 Field_new (ConversionError "load") eq_refl)
    as (st' & Hrun & Hget).
  - apply (bool_decide_unpack _). vm_compute. exact I.
  - intros k v field Hin Hk. simpl in Hin. destruct Hin as [Heq|[]].
    injection Heq as <- <-. vm_compute in Hk. injection Hk as <-.
    exists Field_new. repeat (split; [reflexivity|]).
    intros p Hp. vm_compute in Hp. injection Hp as <-. by vm_compute.
  - reflexivity.
  - reflexivity.
  - reflexivity.
  - reflexivity.
  - reflexivity.
  - exists st'. split; [exact Hrun|]. by rewrite Hget.
Defined.

Lemma load_preserves_fields_and_other_models_witness :
  exists st' f',
    (load (Pl := demo_plugins) (Sf := demo_session_fields)
          user_serializer [("created_at", VInt 5)] (Some 0) None user_state).2 = st' /\
    length (st_fields st') = 3 /\
    st_fields st' !! 0 = Some f' /\ dump_only f' = true.
Proof.
  destruct (load_preserves_fields_and_other_models
              (Pl := demo_plugins) (Sf := demo_session_fields)
              user_serializer [("created_at", VInt 5)] (Some 0) None user_state _ _
              (or_introl eq_refl) (surjective_pairing _))
    as (Hlen & Hflags & _ & _).
  destruct (Hflags 0 dump_only_field eq_refl) as (f' & Hf' & _ & Hdo & _).
  eexists _, f'. split; [reflexivity|]. split; [exact Hlen|]. split; [exact Hf' | exact Hdo].
Defined.

Lemma init_then_dump_keys_witness :
  exists self st1 serial st2,
    __init__ UserSerializerCls User user_state0 = (Ok self, st1) /\
    dump (Pl := demo_plugins) self 0 st1 = (Ok serial, st2) /\
    In "created_at" (dict_keys serial).
Proof.
  eexists _, _, _, _. split; [reflexivity|]. split; [reflexivity|].
  refine (proj1 (init_then_dump_keys (Pl := demo_plugins) UserSerializerCls User 0
                   user_state0 _ _ _ _ _ eq_refl eq_refl) "created_at" _ _).
  - intros name l Hl. apply dict_get_Some_In in Hl. simpl in Hl.
    destruct Hl as [Heq|[]]. injection Heq as <- <-. simpl. lia.
  - apply list_elem_of_In. apply (bool_decide_unpack _). vm_compute. exact I.
  - intros l f Hl. vm_compute in Hl. discriminate Hl.
Defined.

Lemma load_dump_roundtrip_serializers_witness :
  exists st1 model' st',
    dump (Pl := demo_plugins) entry_serializer 0 entry_state =
      (Ok [("id", VInt 4); ("at", VInt 1700)], st1) /\
    load (Pl := demo_plugins) (Sf := demo_session_fields)
         entry_serializer [("id", VInt 4); ("at", VInt 1700)] None None st1 =
      (Ok model', st') /\
    getattr_default st' model' "at" = VDateTime 1700.
Proof.
  set (st1 := mkState demo_mapper
                [Field_new;
                 set_serializer Field_new
                   (mkSerializer demo_mapper DateTimeColumnSerializer (Some datetime_property))]
                (st_objs entry_state) []).
  destruct (load_dump_roundtrip_serializers (Pl := demo_plugins) (Sf := demo_session_fields)
              entry_serializer 0 None entry_state st1 [("id", VInt 4); ("at", VInt 1700)])
    as (model' & st' & Hload & _ & Hget).
  - apply (bool_decide_unpack _). vm_compute. exact I.
  - apply (bool_decide_unpack _). vm_compute. exact I.
  - intros name field Hin. simpl in Hin.
    destruct Hin as [Heq|[Heq|[]]]; injection Heq as <- <-;
      (exists Field_new; split; [reflexivity|]; by repeat split).
  - intros s v d. simpl. unfold demo_dump, demo_load_value.
    destruct (ser_class s), v; intros Hd; try discriminate Hd; by injection Hd as <-.
  - reflexivity.
  - reflexivity.
  - exists st1, model', st'. split; [reflexivity|]. split; [exact Hload|].
    apply (Hget "at"). simpl. tauto.
Defined.

Lemma load_ignores_session_without_session_fields_witness :
  load (Pl := demo_plugins) (Sf := demo_session_fields)
       user_serializer [("name", VStr "Bob")] (Some 0) None user_state =
  load (Pl := demo_plugins) (Sf := demo_session_fields)
       user_serializer [("name", VStr "Bob")] (Some 0) (Some tt) user_state.
Proof.
  apply (load_ignores_session_without_session_fields
           (Pl := demo_plugins) (Sf := demo_session_fields)
           user_serializer [("name", VStr "Bob")] (Some 0) None (Some tt) user_state
           (or_introl eq_refl)).
  intros l f Hl. destruct l as [|[|[|l]]]; simpl in Hl; try discriminate Hl;
    by injection Hl as <-.
Defined.

Lemma load_creates_new_instance_witness :
  exists st',
    load (Pl := passthrough_plugins) (Sf := passthrough_session_fields)
         user_serializer [("name", VStr "Bob")] None None user_state = (Ok 1, st').
Proof.
  destruct (load_creates_new_instance
              (Pl := passthrough_plugins) (Sf := passthrough_session_fields)
              user_serializer [("name", VStr "Bob")] None None user_state eq_refl eq_refl)
    as (st' & Hrun & _).
  - intros name field Hname. apply dict_get_Some_In in Hname. simpl in Hname.
    destruct Hname as [Heq|[Heq|[Heq|[]]]]; injection Heq as <- <-; simpl; eauto.
  - intros f v session. unfold deserialized_value, Field_load. simpl.
    destruct (field_session_based f); [eauto|]. destruct (_serializer f); eauto.
  - exists st'. exact Hrun.
Defined.

Lemma init_twice_shares_declared_only_witness :
  exists self1 st1 self2 st2,
    __init__ UserSerializerCls User user_state0 = (Ok self1, st1) /\
    __init__ UserSerializerCls User st1 = (Ok self2, st2) /\
    dict_get "id" (fields self1) = dict_get "id" (fields self2) /\
    dict_get "name" (fields self1) <> dict_get "name" (fields self2).
Proof.
  eexists _, _, _, _. split; [reflexivity|]. split; [reflexivity|].
  destruct (init_twice_shares_declared_only (Mp := demo_mapper) UserSerializerCls User
              user_state0 _ _ _ _
              (fun name l Hl => ltac:(
                 apply dict_get_Some_In in Hl; simpl in Hl;
                 destruct Hl as [Heq|[]]; injection Heq as <- <-; simpl; lia))
              eq_refl eq_refl) as (_ & Hshare & _).
  split; [reflexivity|]. vm_compute. discriminate.
Defined.
